(** * In-memory transports of mcp_python (src/mcp_python/shared/memory.py)

    The module wires a client session to a server over two in-memory object
    streams.  It consists of two asynchronous generator context managers:

    - [create_client_server_memory_streams], the paired channel factory;
    - [create_connected_server_and_client_session], the session connector.

    The development embeds both generators over a small model of the Python
    runtime pieces they are written against: exceptions, [async with],
    [try]/[finally], generators driven by [asynccontextmanager], the memory
    object streams and the task group.  The protocol collaborators
    ([ClientSession], [Server]) are taken as parameters. *)

From Stdlib Require Import List ZArith Lia Bool String PeanoNat.
From ExtLib Require Import Structures.Monad.
Import ListNotations.
Import MonadNotation.
Local Open Scope monad_scope.
Local Open Scope list_scope.

Set Implicit Arguments.

(** ** Exceptions and outcomes *)

(** The exception values the module can meet.  The first four are the ones the
    memory object streams raise; [RuntimeError] is raised by
    [asynccontextmanager] and by a task group; the next ones stand for
    failures of the collaborators (a cancellation delivered at an await, a
    read timeout, a malformed response, anything else); an exception group
    carries the exceptions a task group collected. *)
#[warnings="-register-all"]
Inductive PyExc : Type :=
| ClosedResourceError
| BrokenResourceError
| WouldBlock
| EndOfStream
| RuntimeError (msg : string)
| CancelledError
| TimeoutError
| ValidationError
| OtherException (code : nat)
| ExceptionGroup (msg : string) (exceptions : list PyExc).

Fixpoint PyExc_eq_dec (a b : PyExc) {struct a} : {a = b} + {a <> b}.
Proof.
  decide equality; try apply string_dec; try apply Nat.eq_dec.
  apply (list_eq_dec PyExc_eq_dec).
Defined.

(** What a call gives back: a value, or a raised exception. *)
Inductive Outcome (A : Type) : Type :=
| Ret (a : A)
| Raise (e : PyExc).
Arguments Raise {A} e.

(** The exception an outcome carries, as [__aexit__] receives it. *)
Definition exc_of {A} (o : Outcome A) : option PyExc :=
  match o with
  | Ret _ => None
  | Raise e => Some e
  end.

(** ** Object stores

    Python objects live in a heap and are held by reference.  A store maps a
    reference to the object it denotes; references are handed out in
    increasing order and an object is never deallocated while a frame holds
    it, so a store is total. *)
Definition Store (A : Type) : Type := nat -> A.

Definition store_set {A} (i : nat) (a : A) (s : Store A) : Store A :=
  fun j => if Nat.eqb j i then a else s j.

(** ** Declared element types

    The subscripts of [MemoryObjectReceiveStream[...]],
    [MemoryObjectSendStream[...]] and [create_memory_object_stream[...]] are
    type annotations.  They are kept as data. *)
Inductive PyType : Type :=
| TJSONRPCMessage
| TException
| TUnion (a b : PyType).

Section Memory.

(** Types declared outside memory.py. *)
Variable JSONRPCMessage : Type.
Variable timedelta : Type.
Variable InitializationOptions : Type.
Variable Server : Type.
Variable ClientSession : Type.
(** The coroutine objects a call of [Server.run] gives. *)
Variable Coroutine : Type.
(** The collaborators' own state (sessions, the server, the scheduler and the
    tasks it runs). *)
Variable Env : Type.

(** A value of type [JSONRPCMessage | Exception]. *)
Definition Item : Type := (JSONRPCMessage + PyExc)%type.

(** Whether a value inhabits a declared type. *)
Fixpoint accepts (t : PyType) (v : Item) : bool :=
  match t with
  | TJSONRPCMessage => match v with inl _ => true | inr _ => false end
  | TException => match v with inl _ => false | inr _ => true end
  | TUnion a b => accepts a v || accepts b v
  end.

(** ** Memory object streams *)

(** Modelled from the spec: the bounded queue behind a pair of stream
    endpoints (anyio's stream state, which is not part of memory.py).  It is
    a FIFO buffer of at most [max_buffer_size] items; a writer that finds the
    buffer full is parked with its item until a reader takes it, a reader
    that finds nothing is parked until a writer hands it an item. *)
Record MemoryObjectStreamState : Type := {
  item_type : PyType;
  max_buffer_size : nat;
  buffer : list Item;
  open_send_channels : Z;
  open_receive_channels : Z;
  waiting_receivers : nat;
  waiting_senders : list Item
}.

(** A stream endpoint object: the state it is bound to and its closed flag. *)
Record StreamObject : Type := {
  stream_state : nat;
  stream_closed : bool
}.

(** References to endpoint objects. *)
Inductive MemoryObjectSendStream : Type := SendStream (ref : nat).
Inductive MemoryObjectReceiveStream : Type := ReceiveStream (ref : nat).

Definition send_ref (s : MemoryObjectSendStream) : nat :=
  let 'SendStream i := s in i.
Definition receive_ref (r : MemoryObjectReceiveStream) : nat :=
  let 'ReceiveStream i := r in i.

(** [MessageStream = tuple[MemoryObjectReceiveStream[JSONRPCMessage | Exception],
                           MemoryObjectSendStream[JSONRPCMessage]]] *)
Definition MessageStream : Type :=
  (MemoryObjectReceiveStream * MemoryObjectSendStream)%type.

(** The element types [MessageStream] declares for its two components. *)
Definition MessageStream_receive_type : PyType := TUnion TJSONRPCMessage TException.
Definition MessageStream_send_type : PyType := TJSONRPCMessage.

(** ** Task groups *)

(** A task group: the coroutines it runs as tasks, in the order they were
    started, whether its cancel scope has been cancelled, and whether it is
    active (entered and not yet exited). *)
Record TaskGroup : Type := {
  tasks : list Coroutine;
  cancel_called : bool;
  active : bool
}.

(** ** The world *)

Record World : Type := {
  states : Store MemoryObjectStreamState;
  next_state : nat;
  send_streams : Store StreamObject;
  next_send_stream : nat;
  receive_streams : Store StreamObject;
  next_receive_stream : nat;
  task_groups : Store TaskGroup;
  next_task_group : nat;
  env : Env
}.

Definition set_states (f : Store MemoryObjectStreamState -> Store MemoryObjectStreamState)
    (n : nat -> nat) (w : World) : World :=
  {| states := f (states w); next_state := n (next_state w);
     send_streams := send_streams w; next_send_stream := next_send_stream w;
     receive_streams := receive_streams w; next_receive_stream := next_receive_stream w;
     task_groups := task_groups w; next_task_group := next_task_group w;
     env := env w |}.

Definition set_send_streams (f : Store StreamObject -> Store StreamObject)
    (n : nat -> nat) (w : World) : World :=
  {| states := states w; next_state := next_state w;
     send_streams := f (send_streams w); next_send_stream := n (next_send_stream w);
     receive_streams := receive_streams w; next_receive_stream := next_receive_stream w;
     task_groups := task_groups w; next_task_group := next_task_group w;
     env := env w |}.

Definition set_receive_streams (f : Store StreamObject -> Store StreamObject)
    (n : nat -> nat) (w : World) : World :=
  {| states := states w; next_state := next_state w;
     send_streams := send_streams w; next_send_stream := next_send_stream w;
     receive_streams := f (receive_streams w); next_receive_stream := n (next_receive_stream w);
     task_groups := task_groups w; next_task_group := next_task_group w;
     env := env w |}.

Definition set_task_groups (f : Store TaskGroup -> Store TaskGroup)
    (n : nat -> nat) (w : World) : World :=
  {| states := states w; next_state := next_state w;
     send_streams := send_streams w; next_send_stream := next_send_stream w;
     receive_streams := receive_streams w; next_receive_stream := next_receive_stream w;
     task_groups := f (task_groups w); next_task_group := n (next_task_group w);
     env := env w |}.

(** ** Traces

    Every call memory.py makes into the library or into a collaborator is
    recorded, with its arguments and its outcome, in the order it is made. *)
Inductive Event : Type :=
| EvCreateStream (state : nat) (size : nat)
    (s : MemoryObjectSendStream) (r : MemoryObjectReceiveStream)
| EvCloseSend (s : MemoryObjectSendStream)
| EvCloseReceive (r : MemoryObjectReceiveStream)
| EvSent (state : nat) (item : Item)
| EvDelivered (state : nat) (item : Item)
| EvTaskGroupEnter (tg : nat)
| EvStartSoon (tg : nat) (coro : Coroutine)
| EvCancel (tg : nat)
| EvTaskGroupExit (tg : nat) (exc : option PyExc) (o : Outcome bool)
| EvClientSession (read_stream : MemoryObjectReceiveStream)
    (write_stream : MemoryObjectSendStream)
    (read_timeout_seconds : option timedelta) (o : Outcome ClientSession)
| EvSessionEnter (mgr : ClientSession) (o : Outcome ClientSession)
| EvInitialize (session : ClientSession) (o : Outcome unit)
| EvSessionExit (mgr : ClientSession) (exc : option PyExc) (o : Outcome bool)
| EvCreateInitializationOptions (server : Server) (o : Outcome InitializationOptions)
| EvServerRun (server : Server) (read_stream : MemoryObjectReceiveStream)
    (write_stream : MemoryObjectSendStream) (opts : InitializationOptions)
    (raise_exceptions : bool) (o : Outcome Coroutine).

(** ** The monad of complete calls

    A call that runs to its end: it may change the world, returns or raises,
    and leaves the trace of what it did. *)
Definition M (A : Type) : Type := World -> Outcome A * World * list Event.

Definition M_ret {A} (a : A) : M A := fun w => (Ret a, w, []).

Definition M_bind {A B} (m : M A) (f : A -> M B) : M B :=
  fun w =>
    match m w with
    | (Ret a, w1, t1) => let '(o, w2, t2) := f a w1 in (o, w2, t1 ++ t2)
    | (Raise e, w1, t1) => (Raise e, w1, t1)
    end.

#[global] Instance Monad_M : Monad M := {| ret := @M_ret; bind := @M_bind |}.

Definition raise {A} (e : PyExc) : M A := fun w => (Raise e, w, []).
Definition emit (ev : Event) : M unit := fun w => (Ret tt, w, [ev]).
Definition get_world : M World := fun w => (Ret w, w, []).
Definition modify_world (f : World -> World) : M unit := fun w => (Ret tt, f w, []).

(** A call into a collaborator: whatever it does to the world, the call and
    its outcome are recorded. *)
Definition call {A} (f : World -> Outcome A * World) (ev : Outcome A -> Event) : M A :=
  fun w => let '(o, w1) := f w in (o, w1, [ev o]).

(** ** Operations of the memory object streams *)

Definition update_state (q : nat)
    (f : MemoryObjectStreamState -> MemoryObjectStreamState) (w : World) : World :=
  set_states (fun st => store_set q (f (st q)) st) (fun n => n) w.

Definition with_buffer (b : list Item) (st : MemoryObjectStreamState) :=
  {| item_type := item_type st; max_buffer_size := max_buffer_size st;
     buffer := b;
     open_send_channels := open_send_channels st;
     open_receive_channels := open_receive_channels st;
     waiting_receivers := waiting_receivers st;
     waiting_senders := waiting_senders st |}.

Definition with_waiting_senders (l : list Item) (st : MemoryObjectStreamState) :=
  {| item_type := item_type st; max_buffer_size := max_buffer_size st;
     buffer := buffer st;
     open_send_channels := open_send_channels st;
     open_receive_channels := open_receive_channels st;
     waiting_receivers := waiting_receivers st;
     waiting_senders := l |}.

Definition with_waiting_receivers (n : nat) (st : MemoryObjectStreamState) :=
  {| item_type := item_type st; max_buffer_size := max_buffer_size st;
     buffer := buffer st;
     open_send_channels := open_send_channels st;
     open_receive_channels := open_receive_channels st;
     waiting_receivers := n;
     waiting_senders := waiting_senders st |}.

Definition with_open_send_channels (n : Z) (st : MemoryObjectStreamState) :=
  {| item_type := item_type st; max_buffer_size := max_buffer_size st;
     buffer := buffer st;
     open_send_channels := n;
     open_receive_channels := open_receive_channels st;
     waiting_receivers := waiting_receivers st;
     waiting_senders := waiting_senders st |}.

Definition with_open_receive_channels (n : Z) (st : MemoryObjectStreamState) :=
  {| item_type := item_type st; max_buffer_size := max_buffer_size st;
     buffer := buffer st;
     open_send_channels := open_send_channels st;
     open_receive_channels := n;
     waiting_receivers := waiting_receivers st;
     waiting_senders := waiting_senders st |}.

(** [anyio.create_memory_object_stream[ty](size)]: a fresh state with one open
    send endpoint and one open receive endpoint bound to it. *)
Definition create_memory_object_stream (ty : PyType) (size : nat)
    : M (MemoryObjectSendStream * MemoryObjectReceiveStream) :=
  fun w =>
    let q := next_state w in
    let s := next_send_stream w in
    let r := next_receive_stream w in
    let st := {| item_type := ty; max_buffer_size := size; buffer := [];
                 open_send_channels := 1; open_receive_channels := 1;
                 waiting_receivers := 0; waiting_senders := [] |} in
    let w1 := set_states (store_set q st) S w in
    let w2 := set_send_streams
                (store_set s {| stream_state := q; stream_closed := false |}) S w1 in
    let w3 := set_receive_streams
                (store_set r {| stream_state := q; stream_closed := false |}) S w2 in
    (Ret (SendStream s, ReceiveStream r), w3,
     [EvCreateStream q size (SendStream s) (ReceiveStream r)]).

(** [send_stream.send_nowait(item)] *)
Definition send_nowait (s : MemoryObjectSendStream) (item : Item) : M unit :=
  fun w =>
    let obj := send_streams w (send_ref s) in
    let q := stream_state obj in
    let st := states w q in
    if stream_closed obj then (Raise ClosedResourceError, w, [])
    else if (open_receive_channels st =? 0)%Z then (Raise BrokenResourceError, w, [])
    else match waiting_receivers st with
         | S n =>
             (Ret tt, update_state q (with_waiting_receivers n) w,
              [EvSent q item; EvDelivered q item])
         | O =>
             if List.length (buffer st) <? max_buffer_size st
             then (Ret tt, update_state q (with_buffer (buffer st ++ [item])) w,
                   [EvSent q item])
             else (Raise WouldBlock, w, [])
         end.

(** [receive_stream.receive_nowait()] *)
Definition receive_nowait (r : MemoryObjectReceiveStream) : M Item :=
  fun w =>
    let obj := receive_streams w (receive_ref r) in
    let q := stream_state obj in
    let st := states w q in
    if stream_closed obj then (Raise ClosedResourceError, w, [])
    else
      let st1 := match waiting_senders st with
                 | item :: rest =>
                     with_waiting_senders rest (with_buffer (buffer st ++ [item]) st)
                 | [] => st
                 end in
      match buffer st1 with
      | item :: rest =>
          (Ret item, update_state q (fun _ => with_buffer rest st1) w,
           [EvDelivered q item])
      | [] =>
          if (open_send_channels st =? 0)%Z then (Raise EndOfStream, w, [])
          else (Raise WouldBlock, w, [])
      end.

(** What starting an awaitable stream operation gives: it completes at once,
    or the calling task is suspended in it. *)
Inductive Awaited (A : Type) : Type :=
| Done (a : A)
| Suspended.
Arguments Suspended {A}.

(** [await send_stream.send(item)]: [send_nowait], and on [WouldBlock] the
    writer is parked with its item. *)
Definition send (s : MemoryObjectSendStream) (item : Item) : M (Awaited unit) :=
  fun w =>
    match send_nowait s item w with
    | (Ret _, w1, t) => (Ret (Done tt), w1, t)
    | (Raise WouldBlock, _, _) =>
        let q := stream_state (send_streams w (send_ref s)) in
        (Ret Suspended,
         update_state q (fun st => with_waiting_senders (waiting_senders st ++ [item]) st) w,
         [EvSent q item])
    | (Raise e, w1, t) => (Raise e, w1, t)
    end.

(** [await receive_stream.receive()]: [receive_nowait], and on [WouldBlock]
    the reader is parked. *)
Definition receive (r : MemoryObjectReceiveStream) : M (Awaited Item) :=
  fun w =>
    match receive_nowait r w with
    | (Ret item, w1, t) => (Ret (Done item), w1, t)
    | (Raise WouldBlock, _, _) =>
        let q := stream_state (receive_streams w (receive_ref r)) in
        (Ret Suspended,
         update_state q (fun st => with_waiting_receivers (S (waiting_receivers st)) st) w,
         [])
    | (Raise e, w1, t) => (Raise e, w1, t)
    end.

(** [await send_stream.aclose()] *)
Definition aclose_send (s : MemoryObjectSendStream) : M unit :=
  fun w =>
    let obj := send_streams w (send_ref s) in
    let q := stream_state obj in
    if stream_closed obj then (Ret tt, w, [EvCloseSend s])
    else
      let w1 := set_send_streams
                  (store_set (send_ref s) {| stream_state := q; stream_closed := true |})
                  (fun n => n) w in
      let w2 := update_state q
                  (fun st =>
                     let st1 := with_open_send_channels (open_send_channels st - 1)%Z st in
                     if (open_send_channels st1 =? 0)%Z
                     then with_waiting_receivers 0 st1 else st1) w1 in
      (Ret tt, w2, [EvCloseSend s]).

(** [await receive_stream.aclose()] *)
Definition aclose_receive (r : MemoryObjectReceiveStream) : M unit :=
  fun w =>
    let obj := receive_streams w (receive_ref r) in
    let q := stream_state obj in
    if stream_closed obj then (Ret tt, w, [EvCloseReceive r])
    else
      let w1 := set_receive_streams
                  (store_set (receive_ref r) {| stream_state := q; stream_closed := true |})
                  (fun n => n) w in
      let w2 := update_state q
                  (fun st => with_open_receive_channels (open_receive_channels st - 1)%Z st)
                  w1 in
      (Ret tt, w2, [EvCloseReceive r]).

(** ** Operations of the task group *)

(** [anyio.create_task_group()] entered: a fresh, active group with no task,
    whose cancel scope has not been cancelled. *)
Definition task_group_enter : M nat :=
  fun w =>
    let tg := next_task_group w in
    (Ret tg,
     set_task_groups
       (store_set tg {| tasks := []; cancel_called := false; active := true |}) S w,
     [EvTaskGroupEnter tg]).

(** [tg.start_soon(func)], as anyio's task group does it: a group that is
    not active refuses; otherwise [func()] is called at once, in the caller
    of [start_soon], and the coroutine it returns is made a task of the
    group (what [func()] returns is a coroutine by its type here; anyio
    raises [TypeError] for anything else).  An exception raised by [func()]
    leaves [start_soon] before any task exists.  The task itself runs when
    the scheduler resumes it, at the awaits of the collaborators. *)
Definition start_soon (tg : nat) (func : M Coroutine) : M unit :=
  fun w =>
    if active (task_groups w tg) then
      match func w with
      | (Ret coro, w1, t1) =>
          (Ret tt,
           set_task_groups
             (fun st => store_set tg {| tasks := tasks (st tg) ++ [coro];
                                        cancel_called := cancel_called (st tg);
                                        active := active (st tg) |} st)
             (fun n => n) w1,
           t1 ++ [EvStartSoon tg coro])
      | (Raise e, w1, t1) => (Raise e, w1, t1)
      end
    else
      (Raise (RuntimeError "This task group is not active; no new tasks can be started."),
       w, []).

(** [tg.cancel_scope.cancel()] *)
Definition cancel (tg : nat) : M unit :=
  fun w =>
    (Ret tt,
     set_task_groups
       (fun st => store_set tg {| tasks := tasks (st tg); cancel_called := true;
                                  active := active (st tg) |} st)
       (fun n => n) w,
     [EvCancel tg]).

(** ** Generator code

    The body of an async generator: it returns, raises, performs a complete
    call, or yields.  A generator suspended at a [yield] is resumed either
    normally ([None]) or by an exception thrown in at the yield. *)
Inductive Prog (Y A : Type) : Type :=
| Return (a : A)
| Throw (e : PyExc)
| Yield (y : Y) (k : option PyExc -> Prog Y A)
| Await (X : Type) (m : M X) (k : Outcome X -> Prog Y A).
Arguments Return {Y A} a.
Arguments Throw {Y A} e.

Fixpoint Prog_bind {Y A B} (p : Prog Y A) (f : A -> Prog Y B) : Prog Y B :=
  match p with
  | Return a => f a
  | Throw e => Throw e
  | Yield y k => Yield y (fun r => Prog_bind (k r) f)
  | Await m k => Await m (fun o => Prog_bind (k o) f)
  end.

#[global] Instance Monad_Prog (Y : Type) : Monad (Prog Y) :=
  {| ret := fun A => @Return Y A; bind := fun A B => @Prog_bind Y A B |}.

(** A complete call made from generator code. *)
Definition perform {Y A} (m : M A) : Prog Y A :=
  Await m (fun o => match o with Ret a => Return a | Raise e => Throw e end).

(** [yield y] *)
Definition yield_ {Y} (y : Y) : Prog Y unit :=
  Yield y (fun r => match r with None => Return tt | Some e => Throw e end).

(** [try: p finally: fin], for a [finally] block that makes complete calls. *)
Fixpoint try_finally {Y} (p : Prog Y unit) (fin : M unit) : Prog Y unit :=
  match p with
  | Return _ =>
      Await fin (fun o => match o with Ret _ => Return tt | Raise e => Throw e end)
  | Throw e =>
      Await fin (fun o => match o with Ret _ => Throw e | Raise e' => Throw e' end)
  | Yield y k => Yield y (fun r => try_finally (k r) fin)
  | Await m k => Await m (fun o => try_finally (k o) fin)
  end.

(** An entered context manager gives the value bound by [as] and its
    [__aexit__], which is told the exception leaving the block (if any) and
    answers whether to suppress it. *)
Definition Exit : Type := option PyExc -> M bool.
Definition ContextManager (X : Type) : Type := M (X * Exit).

(** The block of an [async with], followed on every way out by [__aexit__]. *)
Fixpoint with_exit {Y} (ex : Exit) (p : Prog Y unit) : Prog Y unit :=
  match p with
  | Return _ =>
      Await (ex None)
        (fun o => match o with Ret _ => Return tt | Raise e => Throw e end)
  | Throw e =>
      Await (ex (Some e))
        (fun o => match o with
                  | Ret true => Return tt
                  | Ret false => Throw e
                  | Raise e' => Throw e'
                  end)
  | Yield y k => Yield y (fun r => with_exit ex (k r))
  | Await m k => Await m (fun o => with_exit ex (k o))
  end.

(** [async with cm as x: blk] *)
Definition async_with {Y X} (cm : ContextManager X) (blk : X -> Prog Y unit)
    : Prog Y unit :=
  Await cm (fun o => match o with
                     | Ret (x, ex) => with_exit ex (blk x)
                     | Raise e => Throw e
                     end).

(** Where running generator code stops. *)
Inductive Suspension (Y A : Type) : Type :=
| Finished (a : A)
| AtYield (y : Y) (k : option PyExc -> Prog Y A).
Arguments Finished {Y A} a.

(** Run generator code up to its next [yield], its return or its raise. *)
Fixpoint drive {Y A} (p : Prog Y A)
    : World -> Outcome (Suspension Y A) * World * list Event :=
  match p with
  | Return a => fun w => (Ret (Finished a), w, [])
  | Throw e => fun w => (Raise e, w, [])
  | Yield y k => fun w => (Ret (AtYield y k), w, [])
  | Await m k =>
      fun w =>
        let '(o, w1, t1) := m w in
        let '(r, w2, t2) := drive (k o) w1 in
        (r, w2, t1 ++ t2)
  end.

(** [__aexit__] of a context manager made by [asynccontextmanager]: resume
    the suspended generator.  An exception of the block that the generator
    lets through is handed back to the [async with] to re-raise. *)
Definition generator_exit {Y} (k : option PyExc -> Prog Y unit) : Exit :=
  fun exc w =>
    match drive (k exc) w with
    | (Ret (Finished _), w1, t) =>
        (Ret (match exc with Some _ => true | None => false end), w1, t)
    | (Ret (AtYield _ _), w1, t) =>
        (Raise (RuntimeError
                  (match exc with
                   | None => "generator didn't stop"
                   | Some _ => "generator didn't stop after athrow()"
                   end)), w1, t)
    | (Raise e', w1, t) =>
        match exc with
        | Some e => if PyExc_eq_dec e' e then (Ret false, w1, t) else (Raise e', w1, t)
        | None => (Raise e', w1, t)
        end
    end.

(** [@asynccontextmanager]: [__aenter__] runs the generator to its first
    [yield] and binds the yielded value. *)
Definition asynccontextmanager {Y} (gen : Prog Y unit) : ContextManager Y :=
  fun w =>
    match drive gen w with
    | (Ret (AtYield y k), w1, t) => (Ret (y, generator_exit k), w1, t)
    | (Ret (Finished _), w1, t) => (Raise (RuntimeError "generator didn't yield"), w1, t)
    | (Raise e, w1, t) => (Raise e, w1, t)
    end.

(** A caller's code, which is no generator, run to its end. *)
Definition exec {A} (p : Prog Empty_set A) : M A :=
  fun w =>
    match drive p w with
    | (Ret (Finished a), w1, t) => (Ret a, w1, t)
    | (Ret (AtYield y _), _, _) => match y with end
    | (Raise e, w1, t) => (Raise e, w1, t)
    end.

(** ** Context managers of the library *)

(** A stream endpoint used in [async with]: [__aenter__] returns the endpoint,
    [__aexit__] closes it and suppresses nothing. *)
Definition receive_stream_aexit (r : MemoryObjectReceiveStream) : Exit :=
  fun _ => aclose_receive r ;; ret false.

Definition receive_stream_cm (r : MemoryObjectReceiveStream)
    : ContextManager MemoryObjectReceiveStream :=
  ret (r, receive_stream_aexit r).

Definition send_stream_aexit (s : MemoryObjectSendStream) : Exit :=
  fun _ => aclose_send s ;; ret false.

Definition send_stream_cm (s : MemoryObjectSendStream)
    : ContextManager MemoryObjectSendStream :=
  ret (s, send_stream_aexit s).

(** ** Collaborators

    What memory.py calls but does not define.  Each takes the world as it
    finds it and leaves it as it likes, which includes whatever the tasks of
    the scheduler do while the call is suspended; the task group's
    [__aexit__] is among them because what it answers depends on the tasks it
    waits for.  A call of [Server.run] gives the coroutine of the processing
    loop. *)
Variable TaskGroup_aexit : nat -> option PyExc -> World -> Outcome bool * World.
Variable ClientSession_new :
  MemoryObjectReceiveStream -> MemoryObjectSendStream -> option timedelta ->
  World -> Outcome ClientSession * World.
Variable ClientSession_aenter : ClientSession -> World -> Outcome ClientSession * World.
Variable ClientSession_initialize : ClientSession -> World -> Outcome unit * World.
Variable ClientSession_aexit :
  ClientSession -> option PyExc -> World -> Outcome bool * World.
Variable Server_create_initialization_options :
  Server -> World -> Outcome InitializationOptions * World.
Variable Server_run :
  Server -> MemoryObjectReceiveStream -> MemoryObjectSendStream ->
  InitializationOptions -> bool -> World -> Outcome Coroutine * World.

(** [__aexit__] of the task group [tg]. *)
Definition task_group_aexit (tg : nat) : Exit :=
  fun exc => call (TaskGroup_aexit tg exc) (EvTaskGroupExit tg exc).

(** [anyio.create_task_group()] used in [async with]. *)
Definition create_task_group : ContextManager nat :=
  tg <- task_group_enter ;;
  ret (tg, task_group_aexit tg).

(** [__aexit__] of the session manager [mgr]. *)
Definition session_aexit (mgr : ClientSession) : Exit :=
  fun exc => call (ClientSession_aexit mgr exc) (EvSessionExit mgr exc).

(** [ClientSession(read_stream=..., write_stream=..., read_timeout_seconds=...)]
    used in [async with]: the constructor, then [__aenter__]. *)
Definition ClientSession_cm (read_stream : MemoryObjectReceiveStream)
    (write_stream : MemoryObjectSendStream) (read_timeout_seconds : option timedelta)
    : ContextManager ClientSession :=
  mgr <- call (ClientSession_new read_stream write_stream read_timeout_seconds)
           (EvClientSession read_stream write_stream read_timeout_seconds) ;;
  client_session <- call (ClientSession_aenter mgr) (EvSessionEnter mgr) ;;
  ret (client_session, session_aexit mgr).

(** [await client_session.initialize()] *)
Definition initialize (client_session : ClientSession) : M unit :=
  call (ClientSession_initialize client_session) (EvInitialize client_session).

(** [server.create_initialization_options()] *)
Definition server_create_initialization_options (server : Server)
    : M InitializationOptions :=
  call (Server_create_initialization_options server)
       (EvCreateInitializationOptions server).

(** [server.run(read_stream, write_stream, initialization_options,
                raise_exceptions=raise_exceptions)] *)
Definition server_run (server : Server) (read_stream : MemoryObjectReceiveStream)
    (write_stream : MemoryObjectSendStream)
    (initialization_options : InitializationOptions) (raise_exceptions : bool)
    : M Coroutine :=
  call (Server_run server read_stream write_stream initialization_options
          raise_exceptions)
       (EvServerRun server read_stream write_stream initialization_options
          raise_exceptions).

(** ** memory.py *)

(** The element type both streams are created with. *)
Definition stream_item_type : PyType := TUnion TJSONRPCMessage TException.

Definition create_client_server_memory_streams
    : Prog (MessageStream * MessageStream) unit :=
  '(server_to_client_send, server_to_client_receive) <-
     perform (create_memory_object_stream stream_item_type 1) ;;
  '(client_to_server_send, client_to_server_receive) <-
     perform (create_memory_object_stream stream_item_type 1) ;;
  let client_streams := (server_to_client_receive, client_to_server_send) in
  let server_streams := (client_to_server_receive, server_to_client_send) in
  async_with (receive_stream_cm server_to_client_receive) (fun _ =>
  async_with (send_stream_cm client_to_server_send) (fun _ =>
  async_with (receive_stream_cm client_to_server_receive) (fun _ =>
  async_with (send_stream_cm server_to_client_send) (fun _ =>
    yield_ (client_streams, server_streams))))).

Definition create_connected_server_and_client_session (server : Server)
    (read_timeout_seconds : option timedelta) (raise_exceptions : bool)
    : Prog ClientSession unit :=
  async_with (asynccontextmanager create_client_server_memory_streams)
    (fun '(client_streams, server_streams) =>
       let '(client_read, client_write) := client_streams in
       let '(server_read, server_write) := server_streams in
       async_with create_task_group (fun tg =>
         perform (start_soon tg
                    (* lambda: server.run(server_read, server_write,
                         server.create_initialization_options(),
                         raise_exceptions=raise_exceptions) *)
                    (initialization_options <-
                       server_create_initialization_options server ;;
                     server_run server server_read server_write
                       initialization_options raise_exceptions)) ;;
         try_finally
           (async_with
              (ClientSession_cm client_read client_write read_timeout_seconds)
              (fun client_session =>
                 perform (initialize client_session) ;;
                 yield_ client_session))
           (cancel tg))).

(** A world in which nothing has been allocated yet. *)
Definition initial_world (e : Env) : World :=
  {| states := fun _ => {| item_type := TException; max_buffer_size := 0; buffer := [];
                           open_send_channels := 0; open_receive_channels := 0;
                           waiting_receivers := 0; waiting_senders := [] |};
     next_state := 0;
     send_streams := fun _ => {| stream_state := 0; stream_closed := true |};
     next_send_stream := 0;
     receive_streams := fun _ => {| stream_state := 0; stream_closed := true |};
     next_receive_stream := 0;
     task_groups := fun _ => {| tasks := []; cancel_called := false; active := false |};
     next_task_group := 0;
     env := e |}.

(** ** Observations on a world *)

(** The state an endpoint is bound to, and whether the endpoint is closed. *)
Definition send_stream_state (w : World) (s : MemoryObjectSendStream) : nat :=
  stream_state (send_streams w (send_ref s)).
Definition receive_stream_state (w : World) (r : MemoryObjectReceiveStream) : nat :=
  stream_state (receive_streams w (receive_ref r)).
Definition send_closed (w : World) (s : MemoryObjectSendStream) : bool :=
  stream_closed (send_streams w (send_ref s)).
Definition receive_closed (w : World) (r : MemoryObjectReceiveStream) : bool :=
  stream_closed (receive_streams w (receive_ref r)).

(** The endpoints of [streams] are bound in [w'] to the states they are
    bound to in [w]: the binding of an endpoint object never changes. *)
Definition bound_as (w w' : World) (streams : MessageStream) : Prop :=
  receive_stream_state w' (fst streams) = receive_stream_state w (fst streams)
  /\ send_stream_state w' (snd streams) = send_stream_state w (snd streams).

(** Every reference handed out in [w] is handed out in [w']. *)
Definition allocated_le (w w' : World) : Prop :=
  next_state w <= next_state w'
  /\ next_send_stream w <= next_send_stream w'
  /\ next_receive_stream w <= next_receive_stream w'.

(** ** Schedules of stream operations *)

(** An operation started on one direction of the link: a write by the
    sending side, or a read by the receiving side. *)
Inductive StreamOp : Type :=
| OpSend (item : Item)
| OpReceive.

(** Start the operations of a schedule one after the other; an operation that
    raises leaves the world as it is. *)
Fixpoint run_ops (s : MemoryObjectSendStream) (r : MemoryObjectReceiveStream)
    (ops : list StreamOp) (w : World) : World * list Event :=
  match ops with
  | [] => (w, [])
  | OpSend item :: ops' =>
      let '(_, w1, t1) := send s item w in
      let '(w2, t2) := run_ops s r ops' w1 in
      (w2, t1 ++ t2)
  | OpReceive :: ops' =>
      let '(_, w1, t1) := receive r w in
      let '(w2, t2) := run_ops s r ops' w1 in
      (w2, t1 ++ t2)
  end.

(** The items a schedule writes, in the order of its writes. *)
Fixpoint written_items (ops : list StreamOp) : list Item :=
  match ops with
  | [] => []
  | OpSend item :: ops' => item :: written_items ops'
  | OpReceive :: ops' => written_items ops'
  end.

(** The number of reads a schedule starts. *)
Fixpoint reads_started (ops : list StreamOp) : nat :=
  match ops with
  | [] => 0
  | OpSend _ :: ops' => reads_started ops'
  | OpReceive :: ops' => S (reads_started ops')
  end.

(** The items a trace records as handed to a reader of stream [q]. *)
Fixpoint handed_over (q : nat) (t : list Event) : list Item :=
  match t with
  | [] => []
  | EvDelivered q' item :: t' =>
      if Nat.eqb q' q then item :: handed_over q t' else handed_over q t'
  | _ :: t' => handed_over q t'
  end.

(** What the two sides see of a schedule: the items whose write was accepted
    (the [send] returned, or parked the writer with its item; it did not
    raise), the items the reading side was given, both in the order it
    happened, and the world the schedule leaves.  The reading side is given
    an item by a [receive] that returns it; or, when a reader is parked, by
    the [send] that takes the reader off the waiting list and hands it the
    item, which is what the parked [receive] returns when it is resumed: the
    stream keeps no other record of that item than the delivery in the trace
    of that [send]. *)
Fixpoint observe (s : MemoryObjectSendStream) (r : MemoryObjectReceiveStream)
    (ops : list StreamOp) (w : World) : list Item * list Item * World :=
  match ops with
  | [] => ([], [], w)
  | OpSend item :: ops' =>
      let '(o, w1, t1) := send s item w in
      let q := send_stream_state w s in
      let accepted := match o with Ret _ => [item] | Raise _ => [] end in
      let given := handed_over q t1 in
      let '(a, g, wf) := observe s r ops' w1 in
      (accepted ++ a, given ++ g, wf)
  | OpReceive :: ops' =>
      let '(o, w1, _) := receive r w in
      let given := match o with Ret (Done item) => [item] | _ => [] end in
      let '(a, g, wf) := observe s r ops' w1 in
      (a, given ++ g, wf)
  end.

(** The items a stream holds: buffered, then those of the parked writers. *)
Definition pending (st : MemoryObjectStreamState) : list Item :=
  buffer st ++ waiting_senders st.

(** A reader is parked only at an empty stream, a writer only at a full
    buffer. *)
Definition queue_ok (st : MemoryObjectStreamState) : Prop :=
  (waiting_receivers st <> 0 -> buffer st = [] /\ waiting_senders st = [])
  /\ (waiting_senders st <> [] -> max_buffer_size st <= List.length (buffer st)).

(** One direction of the link while the scope is open: both endpoints are
    open and bound to stream [q], and the queue is well formed. *)
Definition open_link (s : MemoryObjectSendStream) (r : MemoryObjectReceiveStream)
    (q : nat) (w : World) : Prop :=
  send_closed w s = false /\ send_stream_state w s = q
  /\ receive_closed w r = false /\ receive_stream_state w r = q
  /\ open_send_channels (states w q) <> 0%Z
  /\ open_receive_channels (states w q) <> 0%Z
  /\ queue_ok (states w q).

(** ** Running generator code, compositionally *)

(** What [__aexit__] makes of the way a block ended. *)
Definition after_exit {Y} (ex : Exit)
    (res : Outcome (Suspension Y unit) * World * list Event)
    : Outcome (Suspension Y unit) * World * list Event :=
  match res with
  | (Ret (Finished _), w1, t1) =>
      let '(o, w2, t2) := ex None w1 in
      (match o with Ret _ => Ret (Finished tt) | Raise e => Raise e end, w2, t1 ++ t2)
  | (Ret (AtYield y k), w1, t1) =>
      (Ret (AtYield y (fun r => with_exit ex (k r))), w1, t1)
  | (Raise e, w1, t1) =>
      let '(o, w2, t2) := ex (Some e) w1 in
      (match o with
       | Ret true => Ret (Finished tt)
       | Ret false => Raise e
       | Raise e' => Raise e'
       end, w2, t1 ++ t2)
  end.

(** What a [finally] block makes of the way its [try] block ended. *)
Definition after_finally {Y} (fin : M unit)
    (res : Outcome (Suspension Y unit) * World * list Event)
    : Outcome (Suspension Y unit) * World * list Event :=
  match res with
  | (Ret (Finished _), w1, t1) =>
      let '(o, w2, t2) := fin w1 in
      (match o with Ret _ => Ret (Finished tt) | Raise e => Raise e end, w2, t1 ++ t2)
  | (Ret (AtYield y k), w1, t1) =>
      (Ret (AtYield y (fun r => try_finally (k r) fin)), w1, t1)
  | (Raise e, w1, t1) =>
      let '(o, w2, t2) := fin w1 in
      (match o with Ret _ => Raise e | Raise e' => Raise e' end, w2, t1 ++ t2)
  end.

(** Prefix the trace of a run. *)
Definition traced {A} (t : list Event) (res : Outcome A * World * list Event)
    : Outcome A * World * list Event :=
  let '(o, w, t') := res in (o, w, t ++ t').

(** The four endpoints of a factory invocation are closed. *)
Definition all_closed (w : World) (client_streams server_streams : MessageStream) : Prop :=
  receive_closed w (fst client_streams) = true
  /\ send_closed w (snd client_streams) = true
  /\ receive_closed w (fst server_streams) = true
  /\ send_closed w (snd server_streams) = true.

(** The close calls the factory makes when its scope is left, in the order
    [async with] makes them: the reverse of the order of entry. *)
Definition releases (client_streams server_streams : MessageStream) : list Event :=
  [EvCloseSend (snd server_streams); EvCloseReceive (fst server_streams);
   EvCloseSend (snd client_streams); EvCloseReceive (fst client_streams)].

(** Generator code that ran to its end: it returned or raised. *)
Definition completed {Y A} (o : Outcome (Suspension Y A)) : Prop :=
  match o with
  | Ret (AtYield _ _) => False
  | _ => True
  end.

(** How a block that ran to its end leaves an [async with] whose [__aexit__]
    answered [a]. *)
Definition exit_outcome {Y} (o : Outcome (Suspension Y unit)) (a : Outcome bool)
    : Outcome (Suspension Y unit) :=
  match o, a with
  | Ret _, Ret _ => Ret (Finished tt)
  | Ret _, Raise e' => Raise e'
  | Raise _, Ret true => Ret (Finished tt)
  | Raise e, Ret false => Raise e
  | Raise _, Raise e' => Raise e'
  end.

(** An [__aexit__] answer that lets the exception [e] through: it declines to
    suppress it, or re-raises it. *)
Definition lets_through (e : PyExc) (a : Outcome bool) : Prop :=
  a = Ret false \/ a = Raise e.

(** How the block
    [async with ClientSession(...) as client_session:
         await client_session.initialize(); yield client_session]
    can run up to its yield or its end, and the trace it leaves. *)
Inductive session_result (read_stream : MemoryObjectReceiveStream)
    (write_stream : MemoryObjectSendStream) (read_timeout_seconds : option timedelta)
    : Outcome (Suspension ClientSession unit) -> list Event -> Prop :=
| SessionNewFailed (e : PyExc) :
    session_result read_stream write_stream read_timeout_seconds
      (Raise e)
      [EvClientSession read_stream write_stream read_timeout_seconds (Raise e)]
| SessionEnterFailed (mgr : ClientSession) (e : PyExc) :
    session_result read_stream write_stream read_timeout_seconds
      (Raise e)
      [EvClientSession read_stream write_stream read_timeout_seconds (Ret mgr);
       EvSessionEnter mgr (Raise e)]
| HandshakeFailed (mgr session : ClientSession) (e : PyExc) (w : World) :
    let a := fst (ClientSession_aexit mgr (Some e) w) in
    session_result read_stream write_stream read_timeout_seconds
      (exit_outcome (Raise e) a)
      [EvClientSession read_stream write_stream read_timeout_seconds (Ret mgr);
       EvSessionEnter mgr (Ret session);
       EvInitialize session (Raise e);
       EvSessionExit mgr (Some e) a]
| SessionReady (mgr session : ClientSession) :
    session_result read_stream write_stream read_timeout_seconds
      (Ret (AtYield session
              (fun r => with_exit (session_aexit mgr)
                          match r with
                          | None => Return tt
                          | Some e => Throw e
                          end)))
      [EvClientSession read_stream write_stream read_timeout_seconds (Ret mgr);
       EvSessionEnter mgr (Ret session);
       EvInitialize session (Ret tt)].

(** How [tg.start_soon(lambda: server.run(...))] can go in a group that is
    active, and the trace it leaves: the callable raised while it evaluated
    [server.create_initialization_options()], or in the call of [server.run],
    or it returned a coroutine, which was made a task of the group. *)
Inductive start_result (server : Server) (server_read : MemoryObjectReceiveStream)
    (server_write : MemoryObjectSendStream) (raise_exceptions : bool) (tg : nat)
    : Outcome unit -> list Event -> Prop :=
| OptionsFailed (e : PyExc) :
    start_result server server_read server_write raise_exceptions tg
      (Raise e)
      [EvCreateInitializationOptions server (Raise e)]
| RunFailed (opts : InitializationOptions) (e : PyExc) :
    start_result server server_read server_write raise_exceptions tg
      (Raise e)
      [EvCreateInitializationOptions server (Ret opts);
       EvServerRun server server_read server_write opts raise_exceptions (Raise e)]
| TaskStarted (opts : InitializationOptions) (coro : Coroutine) :
    start_result server server_read server_write raise_exceptions tg
      (Ret tt)
      [EvCreateInitializationOptions server (Ret opts);
       EvServerRun server server_read server_write opts raise_exceptions (Ret coro);
       EvStartSoon tg coro].

(** The events of a session: its construction, [__aenter__], [initialize]
    and [__aexit__]. *)
Definition session_event (ev : Event) : Prop :=
  match ev with
  | EvClientSession _ _ _ _ | EvSessionEnter _ _ | EvInitialize _ _
  | EvSessionExit _ _ _ => True
  | _ => False
  end.

(** * Properties *)

Lemma eqb_succ_l (n : nat) : Nat.eqb (S n) n = false.
Proof. apply Nat.eqb_neq. lia. Qed.

Lemma eqb_succ_r (n : nat) : Nat.eqb n (S n) = false.
Proof. apply Nat.eqb_neq. lia. Qed.

Lemma store_set_eq {A} (i : nat) (a : A) (s : Store A) : store_set i a s i = a.
Proof. unfold store_set. now rewrite Nat.eqb_refl. Qed.

Lemma store_set_ne {A} (i j : nat) (a : A) (s : Store A) :
  j <> i -> store_set i a s j = s j.
Proof. intros H. unfold store_set. now apply Nat.eqb_neq in H as ->. Qed.

Ltac store_simpl :=
  repeat (progress (cbn; unfold store_set;
                    rewrite ?Nat.eqb_refl, ?eqb_succ_l, ?eqb_succ_r)).

Lemma drive_Await {Y A X} (m : M X) (k : Outcome X -> Prog Y A) (w : World) :
  drive (Await m k) w = let '(o, w1, t1) := m w in traced t1 (drive (k o) w1).
Proof. reflexivity. Qed.

Lemma after_exit_traced {Y} (ex : Exit) (t : list Event)
    (res : Outcome (Suspension Y unit) * World * list Event) :
  after_exit ex (traced t res) = traced t (after_exit ex res).
Proof.
  destruct res as [[[[a | y k] | e] w1] t1]; cbn.
  - destruct (ex None w1) as [[o w2] t2]. cbn. now rewrite app_assoc.
  - reflexivity.
  - destruct (ex (Some e) w1) as [[o w2] t2]. cbn. now rewrite app_assoc.
Qed.

Lemma after_finally_traced {Y} (fin : M unit) (t : list Event)
    (res : Outcome (Suspension Y unit) * World * list Event) :
  after_finally fin (traced t res) = traced t (after_finally fin res).
Proof.
  destruct res as [[[[a | y k] | e] w1] t1]; cbn.
  - destruct (fin w1) as [[o w2] t2]. cbn. now rewrite app_assoc.
  - reflexivity.
  - destruct (fin w1) as [[o w2] t2]. cbn. now rewrite app_assoc.
Qed.

Lemma drive_with_exit {Y} (ex : Exit) (p : Prog Y unit) (w : World) :
  drive (with_exit ex p) w = after_exit ex (drive p w).
Proof.
  revert w. induction p as [a | e | y k IH | X m k IH]; intros w; cbn.
  - destruct (ex None w) as [[[b | e] w2] t2]; cbn; now rewrite app_nil_r.
  - destruct (ex (Some e) w) as [[[[|] | e'] w2] t2]; cbn; now rewrite app_nil_r.
  - reflexivity.
  - destruct (m w) as [[o w1] t1].
    change (traced t1 (drive (with_exit ex (k o)) w1)
            = after_exit ex (traced t1 (drive (k o) w1))).
    now rewrite IH, after_exit_traced.
Qed.

Lemma drive_try_finally {Y} (p : Prog Y unit) (fin : M unit) (w : World) :
  drive (try_finally p fin) w = after_finally fin (drive p w).
Proof.
  revert w. induction p as [a | e | y k IH | X m k IH]; intros w; cbn.
  - destruct (fin w) as [[[b | e] w2] t2]; cbn; now rewrite app_nil_r.
  - destruct (fin w) as [[[b | e'] w2] t2]; cbn; now rewrite app_nil_r.
  - reflexivity.
  - destruct (m w) as [[o w1] t1].
    change (traced t1 (drive (try_finally (k o) fin) w1)
            = after_finally fin (traced t1 (drive (k o) w1))).
    now rewrite IH, after_finally_traced.
Qed.

Lemma drive_async_with {Y X} (cm : ContextManager X) (blk : X -> Prog Y unit) (w : World) :
  drive (async_with cm blk) w
  = match cm w with
    | (Ret (x, ex), w1, t1) => traced t1 (after_exit ex (drive (blk x) w1))
    | (Raise e, w1, t1) => (Raise e, w1, t1)
    end.
Proof.
  unfold async_with. rewrite drive_Await.
  destruct (cm w) as [[[[x ex] | e] w1] t1]; cbn; [| now rewrite app_nil_r].
  now rewrite drive_with_exit.
Qed.

Lemma send_stream_aexit_spec (s : MemoryObjectSendStream) (exc : option PyExc) (w : World) :
  exists w2,
    send_stream_aexit s exc w = (Ret false, w2, [EvCloseSend s])
    /\ send_closed w2 s = true
    /\ (forall s', send_closed w s' = true -> send_closed w2 s' = true)
    /\ (forall r, receive_closed w2 r = receive_closed w r)
    /\ task_groups w2 = task_groups w.
Proof.
  unfold send_stream_aexit, aclose_send, send_closed, receive_closed. cbn. unfold M_bind.
  destruct (stream_closed (send_streams w (send_ref s))) eqn:E.
  - exists w. repeat split; auto.
  - eexists. split; [reflexivity |]. cbn. rewrite store_set_eq. repeat split.
    intros s' H. unfold store_set. destruct (Nat.eqb _ _); auto.
Qed.

Lemma receive_stream_aexit_spec (r : MemoryObjectReceiveStream) (exc : option PyExc)
    (w : World) :
  exists w2,
    receive_stream_aexit r exc w = (Ret false, w2, [EvCloseReceive r])
    /\ receive_closed w2 r = true
    /\ (forall r', receive_closed w r' = true -> receive_closed w2 r' = true)
    /\ (forall s, send_closed w2 s = send_closed w s)
    /\ task_groups w2 = task_groups w.
Proof.
  unfold receive_stream_aexit, aclose_receive, send_closed, receive_closed. cbn.
  unfold M_bind.
  destruct (stream_closed (receive_streams w (receive_ref r))) eqn:E.
  - exists w. repeat split; auto.
  - eexists. split; [reflexivity |]. cbn. rewrite store_set_eq. repeat split.
    intros r' H. unfold store_set. destruct (Nat.eqb _ _); auto.
Qed.

Ltac close_step :=
  match goal with
  | |- context [send_stream_aexit ?s ?exc ?w] =>
      let w2 := fresh "w" in
      let E := fresh "E" in
      destruct (send_stream_aexit_spec s exc w) as (w2 & E & ? & ? & ? & ?);
      rewrite E; cbn [after_exit app]
  | |- context [receive_stream_aexit ?r ?exc ?w] =>
      let w2 := fresh "w" in
      let E := fresh "E" in
      destruct (receive_stream_aexit_spec r exc w) as (w2 & E & ? & ? & ? & ?);
      rewrite E; cbn [after_exit app]
  end.

Ltac closed_flags :=
  repeat first
    [ assumption
    | reflexivity
    | match goal with
      | H : forall s, send_closed ?w s = send_closed _ s
        |- send_closed ?w _ = true => rewrite H
      | H : forall r, receive_closed ?w r = receive_closed _ r
        |- receive_closed ?w _ = true => rewrite H
      | H : forall s', send_closed _ s' = true -> send_closed ?w s' = true
        |- send_closed ?w _ = true => apply H
      | H : forall r', receive_closed _ r' = true -> receive_closed ?w r' = true
        |- receive_closed ?w _ = true => apply H
      | H : task_groups ?w = task_groups _ |- context [task_groups ?w] => rewrite H
      end ].

Lemma factory_spec (w : World) :
  exists client_streams server_streams ex w1 t1,
    asynccontextmanager create_client_server_memory_streams w
    = (Ret ((client_streams, server_streams), ex), w1, t1)
    /\ snd server_streams <> snd client_streams
    /\ fst server_streams <> fst client_streams
    /\ next_task_group w1 = next_task_group w
    /\ task_groups w1 = task_groups w
    /\ forall exc wb, exists w',
        ex exc wb = (Ret false, w', releases client_streams server_streams)
        /\ all_closed w' client_streams server_streams
        /\ task_groups w' = task_groups wb.
Proof.
  unfold asynccontextmanager, create_client_server_memory_streams.
  cbn -[receive_stream_aexit send_stream_aexit].
  do 5 eexists. split; [reflexivity |].
  split; [cbn; intros [= H]; lia |]. split; [cbn; intros [= H]; lia |].
  split; [reflexivity |]. split; [reflexivity |].
  intros exc wb. unfold generator_exit, all_closed, releases.
  rewrite !drive_with_exit.
  destruct exc as [e |]; cbn [drive after_exit fst snd];
    repeat close_step;
    try (destruct (PyExc_eq_dec e e); [| congruence]);
    eexists; (split; [reflexivity |]); repeat split; closed_flags.
Qed.


(** ** Leaving the connector *)

Lemma after_exit_completed {Y} (ex : Exit) (o : Outcome (Suspension Y unit))
    (w : World) (t : list Event) :
  completed o ->
  after_exit ex (o, w, t)
  = let '(a, w2, t2) := ex (exc_of o) w in (exit_outcome o a, w2, t ++ t2).
Proof.
  destruct o as [[[] | y k] | e]; cbn; intros C; try contradiction;
    destruct (ex _ w) as [[[[|] | e'] w2] t2]; reflexivity.
Qed.

Lemma exit_outcome_completed {Y} (o : Outcome (Suspension Y unit)) (a : Outcome bool) :
  completed (exit_outcome o a).
Proof. destruct o as [[[] | y k] | e], a as [[|] | e']; exact I. Qed.

Lemma after_finally_cancel {Y} (tg : nat) (o : Outcome (Suspension Y unit))
    (w : World) (t : list Event) :
  completed o ->
  exists w2,
    after_finally (cancel tg) (o, w, t) = (o, w2, t ++ [EvCancel tg])
    /\ cancel_called (task_groups w2 tg) = true.
Proof.
  destruct o as [[[] | y k] | e]; cbn; intros C; try contradiction;
    eexists; (split; [reflexivity |]); cbn; now rewrite store_set_eq.
Qed.

(** Leaving the scope of the connector once the session block has run to
    its end: the task group is cancelled, then exited, then the four
    endpoints are closed. *)
Lemma teardown_spec {Y} (ex : Exit) (client_streams server_streams : MessageStream)
    (tg : nat) (o : Outcome (Suspension Y unit)) (w : World) (t : list Event) :
  (forall exc wb, exists w',
      ex exc wb = (Ret false, w', releases client_streams server_streams)
      /\ all_closed w' client_streams server_streams
      /\ task_groups w' = task_groups wb) ->
  completed o ->
  exists wc a w',
    cancel_called (task_groups wc tg) = true
    /\ a = fst (TaskGroup_aexit tg (exc_of o) wc)
    /\ after_exit ex (after_exit (task_group_aexit tg) (after_finally (cancel tg) (o, w, t)))
       = (exit_outcome o a, w',
          t ++ [EvCancel tg; EvTaskGroupExit tg (exc_of o) a]
            ++ releases client_streams server_streams)
    /\ all_closed w' client_streams server_streams.
Proof.
  intros Hex C.
  destruct (after_finally_cancel tg o w t C) as (wc & -> & F).
  rewrite after_exit_completed by exact C.
  unfold task_group_aexit at 1, call.
  destruct (TaskGroup_aexit tg (exc_of o) wc) as [a w3] eqn:T.
  rewrite after_exit_completed by apply exit_outcome_completed.
  destruct (Hex (exc_of (exit_outcome o a)) w3) as (w' & -> & A & _).
  exists wc, a, w'. rewrite T.
  split; [exact F |]. split; [reflexivity |]. split; [| exact A].
  f_equal; [| now rewrite <- !app_assoc].
  f_equal. destruct o as [[[] | y k] | e], a as [[|] | e']; reflexivity.
Qed.

(** Leaving the two enclosing [async with] with an exception the [try]
    never saw: the task group is exited, then the four endpoints are
    closed. *)
Lemma unwind_spec {Y} (ex : Exit) (client_streams server_streams : MessageStream)
    (tg : nat) (o : Outcome (Suspension Y unit)) (w : World) (t : list Event) :
  (forall exc wb, exists w',
      ex exc wb = (Ret false, w', releases client_streams server_streams)
      /\ all_closed w' client_streams server_streams
      /\ task_groups w' = task_groups wb) ->
  completed o ->
  exists a w',
    a = fst (TaskGroup_aexit tg (exc_of o) w)
    /\ after_exit ex (after_exit (task_group_aexit tg) (o, w, t))
       = (exit_outcome o a, w',
          t ++ [EvTaskGroupExit tg (exc_of o) a]
            ++ releases client_streams server_streams)
    /\ all_closed w' client_streams server_streams.
Proof.
  intros Hex C.
  rewrite after_exit_completed by exact C.
  unfold task_group_aexit at 1, call.
  destruct (TaskGroup_aexit tg (exc_of o) w) as [a w3] eqn:T.
  rewrite after_exit_completed by apply exit_outcome_completed.
  destruct (Hex (exc_of (exit_outcome o a)) w3) as (w' & -> & A & _).
  exists a, w'.
  split; [reflexivity |]. split; [| exact A].
  f_equal; [| now rewrite <- !app_assoc].
  f_equal. destruct o as [[[] | y k] | e], a as [[|] | e']; reflexivity.
Qed.

Lemma session_block_spec (read_stream : MemoryObjectReceiveStream)
    (write_stream : MemoryObjectSendStream) (read_timeout_seconds : option timedelta)
    (w : World) :
  exists o w' t,
    drive (async_with
             (ClientSession_cm read_stream write_stream read_timeout_seconds)
             (fun client_session =>
                perform (initialize client_session) ;; yield_ client_session)) w
    = (o, w', t)
    /\ session_result read_stream write_stream read_timeout_seconds o t
    /\ exists rest,
        t = EvClientSession read_stream write_stream read_timeout_seconds
              (fst (ClientSession_new read_stream write_stream
                      read_timeout_seconds w)) :: rest.
Proof.
  rewrite drive_async_with. unfold ClientSession_cm. cbn [bind ret Monad_M].
  unfold M_bind, M_ret, call at 1.
  destruct (ClientSession_new _ _ _ w) as [[mgr | e] w1].
  2: { do 3 eexists. split; [reflexivity |].
       split; [constructor | eexists; reflexivity]. }
  unfold call at 1.
  destruct (ClientSession_aenter mgr w1) as [[session | e] w2].
  2: { do 3 eexists. split; [reflexivity |].
       split; [constructor | eexists; reflexivity]. }
  cbn [app traced bind Monad_Prog Prog_bind perform drive].
  unfold initialize, call at 1.
  destruct (ClientSession_initialize session w2) as [[[] | e] w3]; cbn.
  - do 3 eexists. split; [reflexivity |].
    split; [constructor | eexists; reflexivity].
  - unfold session_aexit at 1, call.
    destruct (ClientSession_aexit mgr (Some e) w3) as [a w4] eqn:X.
    do 3 eexists.
    split; [| split; [apply (HandshakeFailed _ _ _ mgr session e w3)
                     | eexists; reflexivity]].
    rewrite X. cbn. destruct a as [[|] | e']; reflexivity.
Qed.

(** [tg.start_soon(lambda: server.run(...))] in a group that is active: the
    callable is run at once, and the coroutine it returns, if it returns one,
    is the last task of the group when [start_soon] returns. *)
Lemma start_soon_spec (server : Server) (server_read : MemoryObjectReceiveStream)
    (server_write : MemoryObjectSendStream) (raise_exceptions : bool) (tg : nat)
    (w : World) :
  active (task_groups w tg) = true ->
  exists o w' t,
    start_soon tg
      (initialization_options <- server_create_initialization_options server ;;
       server_run server server_read server_write
         initialization_options raise_exceptions) w
    = (o, w', t)
    /\ start_result server server_read server_write raise_exceptions tg o t
    /\ forall coro, In (EvStartSoon tg coro) t ->
         exists l, tasks (task_groups w' tg) = l ++ [coro].
Proof.
  intros A. unfold start_soon. rewrite A.
  cbn [bind Monad_M]. unfold M_bind, server_create_initialization_options, call at 1.
  destruct (Server_create_initialization_options server w) as [[opts | e] w1].
  2: { do 3 eexists. split; [reflexivity |]. split; [constructor |].
       intros coro [H | []]. discriminate. }
  unfold server_run, call.
  destruct (Server_run server server_read server_write opts raise_exceptions w1)
    as [[coro | e] w2].
  - do 3 eexists. split; [reflexivity |]. split; [constructor |].
    intros coro' [H | [H | [H | []]]]; try discriminate.
    injection H as <-. cbn. rewrite store_set_eq. cbn. eauto.
  - do 3 eexists. split; [reflexivity |]. split; [constructor |].
    intros coro' [H | [H | []]]; discriminate.
Qed.

Lemma create_task_group_eq (w : World) :
  create_task_group w
  = (Ret (next_task_group w, task_group_aexit (next_task_group w)),
     set_task_groups
       (store_set (next_task_group w)
          {| tasks := []; cancel_called := false; active := true |}) S w,
     [EvTaskGroupEnter (next_task_group w)]).
Proof. reflexivity. Qed.

Lemma traced_traced {A} (t t' : list Event) (res : Outcome A * World * list Event) :
  traced t (traced t' res) = traced (t ++ t') res.
Proof. destruct res as [[o w] t0]. cbn. now rewrite app_assoc. Qed.

(** The generator of the connector, run to its yield or its end.  When
    [start_soon] raises, the exception leaves the two enclosing [async with];
    otherwise the session block runs in the world where the server task has
    been started, and whatever it gives goes through the [finally] and the
    two enclosing [async with]. *)
Lemma connector_drive_spec (server : Server) (read_timeout_seconds : option timedelta)
    (raise_exceptions : bool) (w : World) :
  exists client_streams server_streams ex w1 t1 os w2 t2,
    asynccontextmanager create_client_server_memory_streams w
    = (Ret ((client_streams, server_streams), ex), w1, t1)
    /\ (forall exc wb, exists w',
           ex exc wb = (Ret false, w', releases client_streams server_streams)
           /\ all_closed w' client_streams server_streams
           /\ task_groups w' = task_groups wb)
    /\ start_result server (fst server_streams) (snd server_streams)
         raise_exceptions (next_task_group w) os t2
    /\ (forall coro, In (EvStartSoon (next_task_group w) coro) t2 ->
          exists l, tasks (task_groups w2 (next_task_group w)) = l ++ [coro])
    /\ let tg := next_task_group w in
       let pre := t1 ++ [EvTaskGroupEnter tg] ++ t2 in
       match os with
       | Raise e =>
           drive (create_connected_server_and_client_session
                    server read_timeout_seconds raise_exceptions) w
           = after_exit ex
               (after_exit (task_group_aexit tg) (Raise e, w2, pre))
       | Ret _ =>
           exists o w3 t3,
             session_result (fst client_streams) (snd client_streams)
               read_timeout_seconds o t3
             /\ (exists rest,
                   t3 = EvClientSession (fst client_streams) (snd client_streams)
                          read_timeout_seconds
                          (fst (ClientSession_new (fst client_streams)
                                  (snd client_streams) read_timeout_seconds w2))
                        :: rest)
             /\ drive (create_connected_server_and_client_session
                         server read_timeout_seconds raise_exceptions) w
                = after_exit ex
                    (after_exit (task_group_aexit tg)
                       (after_finally (cancel tg) (o, w3, pre ++ t3)))
       end.
Proof.
  unfold create_connected_server_and_client_session.
  rewrite drive_async_with.
  destruct (factory_spec w)
    as ([client_read client_write] & [server_read server_write] & ex & w1 & t1
        & E & _ & _ & G1 & G2 & Hex).
  rewrite E. rewrite drive_async_with.
  rewrite create_task_group_eq, G1.
  cbn [bind Monad_Prog Prog_bind perform]. rewrite drive_Await.
  match goal with
  | |- context [start_soon ?tg ?f ?w2] =>
      destruct (@start_soon_spec server server_read server_write raise_exceptions tg w2)
        as (os & ws & t2 & S0 & SR & ST)
  end.
  { cbn. now rewrite store_set_eq. }
  rewrite S0.
  exists (client_read, client_write), (server_read, server_write), ex, w1, t1, os, ws, t2.
  split; [reflexivity |]. split; [exact Hex |]. split; [exact SR |].
  split; [exact ST |]. cbv zeta.
  destruct os as [[] | e].
  - cbn [Prog_bind]. rewrite drive_try_finally.
    match goal with
    | |- context [drive (async_with (ClientSession_cm ?a ?b ?c) ?blk) ?w2] =>
        destruct (session_block_spec a b c w2) as (o & w3 & t3 & D & R & F)
    end.
    cbn [bind Monad_Prog Prog_bind perform] in D. rewrite D.
    exists o, w3, t3. split; [exact R |]. split; [exact F |].
    repeat (progress (rewrite <- ?after_finally_traced, <- ?after_exit_traced)).
    rewrite ?traced_traced.
    cbn [traced fst snd]. rewrite <- !app_assoc. reflexivity.
  - cbn [Prog_bind drive].
    repeat (progress (rewrite <- ?after_exit_traced)).
    rewrite ?traced_traced.
    cbn [traced fst snd]. rewrite <- !app_assoc, ?app_nil_r. reflexivity.
Qed.

Lemma session_result_yield_inv (read_stream : MemoryObjectReceiveStream)
    (write_stream : MemoryObjectSendStream) (read_timeout_seconds : option timedelta)
    (session : ClientSession) (k : option PyExc -> Prog ClientSession unit)
    (t : list Event) :
  session_result read_stream write_stream read_timeout_seconds
    (Ret (AtYield session k)) t ->
  exists mgr,
    k = (fun r => with_exit (session_aexit mgr)
                    match r with
                    | None => Return tt
                    | Some e => Throw e
                    end)
    /\ t = [EvClientSession read_stream write_stream read_timeout_seconds (Ret mgr);
            EvSessionEnter mgr (Ret session);
            EvInitialize session (Ret tt)].
Proof.
  intros R. inversion R as [| | mgr s e w a Q | mgr s].
  - destruct a as [[|] | e']; discriminate.
  - exists mgr. split; reflexivity.
Qed.

(** [__aenter__] of a generator that ran to its end without yielding. *)
Lemma enter_of_completed {Y} (gen : Prog Y unit) (w : World)
    (o : Outcome (Suspension Y unit)) (w' : World) (t : list Event) :
  drive gen w = (o, w', t) ->
  completed o ->
  asynccontextmanager gen w
  = (match o with
     | Raise e => Raise e
     | Ret _ => Raise (RuntimeError "generator didn't yield")
     end, w', t).
Proof.
  intros D C. unfold asynccontextmanager. rewrite D.
  destruct o as [[[] | y k] | e]; try reflexivity. contradiction.
Qed.

(** Entering the connector goes one of three ways: [start_soon] raised, the
    scope was left at once and entering raises; or the session block ran to
    its end without yielding, the scope was left through the [finally] and
    entering raises; or the session block reached its yield and the session
    is handed over. *)
Lemma connector_enter_cases (server : Server) (read_timeout_seconds : option timedelta)
    (raise_exceptions : bool) (w : World) :
  exists cs ss ex0 w1 t1 w2 t2 o w' tr,
    asynccontextmanager create_client_server_memory_streams w
    = (Ret ((cs, ss), ex0), w1, t1)
    /\ (forall exc wb, exists w',
           ex0 exc wb = (Ret false, w', releases cs ss)
           /\ all_closed w' cs ss
           /\ task_groups w' = task_groups wb)
    /\ asynccontextmanager
         (create_connected_server_and_client_session
            server read_timeout_seconds raise_exceptions) w
       = (o, w', tr)
    /\ (forall coro, In (EvStartSoon (next_task_group w) coro) t2 ->
          exists l, tasks (task_groups w2 (next_task_group w)) = l ++ [coro])
    /\ let tg := next_task_group w in
       ((exists e,
            start_result server (fst ss) (snd ss) raise_exceptions tg (Raise e) t2
            /\ let a := fst (TaskGroup_aexit tg (Some e) w2) in
               o = match exit_outcome (Y := ClientSession) (Raise e) a with
                   | Raise e' => Raise e'
                   | Ret _ => Raise (RuntimeError "generator didn't yield")
                   end
               /\ tr = t1 ++ [EvTaskGroupEnter tg] ++ t2
                          ++ [EvTaskGroupExit tg (Some e) a] ++ releases cs ss
               /\ all_closed w' cs ss)
        \/ (exists os t3 wc,
               start_result server (fst ss) (snd ss) raise_exceptions tg (Ret tt) t2
               /\ session_result (fst cs) (snd cs) read_timeout_seconds os t3
               /\ (exists rest,
                     t3 = EvClientSession (fst cs) (snd cs) read_timeout_seconds
                            (fst (ClientSession_new (fst cs) (snd cs)
                                    read_timeout_seconds w2)) :: rest)
               /\ completed os
               /\ cancel_called (task_groups wc tg) = true
               /\ let a := fst (TaskGroup_aexit tg (exc_of os) wc) in
                  o = match exit_outcome os a with
                      | Raise e' => Raise e'
                      | Ret _ => Raise (RuntimeError "generator didn't yield")
                      end
                  /\ tr = t1 ++ [EvTaskGroupEnter tg] ++ t2 ++ t3
                             ++ [EvCancel tg; EvTaskGroupExit tg (exc_of os) a]
                             ++ releases cs ss
                  /\ all_closed w' cs ss)
        \/ (exists mgr session,
               start_result server (fst ss) (snd ss) raise_exceptions tg (Ret tt) t2
               /\ (exists oc,
                     oc = fst (ClientSession_new (fst cs) (snd cs)
                                 read_timeout_seconds w2)
                     /\ oc = Ret mgr)
               /\ o = Ret (session,
                           generator_exit (Y := ClientSession)
                             (fun r =>
                                with_exit ex0
                                  (with_exit (task_group_aexit tg)
                                     (try_finally
                                        (with_exit (session_aexit mgr)
                                           match r with
                                           | None => Return tt
                                           | Some e => Throw e
                                           end)
                                        (cancel tg)))))
               /\ tr = t1 ++ [EvTaskGroupEnter tg] ++ t2
                          ++ [EvClientSession (fst cs) (snd cs)
                                read_timeout_seconds (Ret mgr);
                              EvSessionEnter mgr (Ret session);
                              EvInitialize session (Ret tt)])).
Proof.
  destruct (connector_drive_spec server read_timeout_seconds raise_exceptions w)
    as (cs & ss & ex & w1 & t1 & os & w2 & t2 & E & Hex & SR & ST & D).
  cbv zeta in D.
  destruct os as [[] | e].
  - destruct D as (o & w3 & t3 & R & F & D).
    assert (C : (exists session k, o = Ret (AtYield session k)) \/ completed o).
    { destruct o as [[[] | session k] | e]; [right; exact I | left; eauto | right; exact I]. }
    destruct C as [(session & k & ->) | C].
    + destruct (session_result_yield_inv R) as (mgr & -> & ->).
      cbn [after_finally after_exit] in D.
      exists cs, ss, ex, w1, t1, w2, t2. do 3 eexists.
      split; [exact E |]. split; [exact Hex |].
      split; [unfold asynccontextmanager; rewrite D; reflexivity |].
      split; [exact ST |]. cbv zeta. right. right.
      exists mgr, session. split; [exact SR |].
      destruct F as (rest & F). injection F as F _.
      split; [eauto |]. split; [reflexivity |].
      now rewrite <- !app_assoc.
    + destruct (@teardown_spec ClientSession ex cs ss (next_task_group w) o w3
                  ((t1 ++ [EvTaskGroupEnter (next_task_group w)] ++ t2) ++ t3) Hex C)
        as (wc & a & w' & FC & A & X & AC).
      rewrite X in D.
      apply enter_of_completed in D; [| apply exit_outcome_completed].
      exists cs, ss, ex, w1, t1, w2, t2. do 3 eexists.
      split; [exact E |]. split; [exact Hex |]. split; [exact D |].
      split; [exact ST |]. cbv zeta. right. left.
      exists o, t3, wc. split; [exact SR |]. split; [exact R |].
      split; [exact F |]. split; [exact C |]. split; [exact FC |].
      rewrite <- A. split; [reflexivity |].
      split; [now rewrite <- !app_assoc | exact AC].
  - destruct (@unwind_spec ClientSession ex cs ss (next_task_group w) (Raise e) w2
                (t1 ++ [EvTaskGroupEnter (next_task_group w)] ++ t2) Hex I)
      as (a & w' & A & X & AC).
    rewrite X in D.
    apply enter_of_completed in D; [| apply exit_outcome_completed].
    exists cs, ss, ex, w1, t1, w2, t2. do 3 eexists.
    split; [exact E |]. split; [exact Hex |]. split; [exact D |].
    split; [exact ST |]. cbv zeta. left.
    exists e. split; [exact SR |]. cbn [exc_of] in A. rewrite <- A.
    split; [reflexivity |].
    split; [now rewrite <- !app_assoc | exact AC].
Qed.

(** Leaving the connector after the session was handed over: the session is
    exited, the task group is cancelled and exited, the endpoints are
    closed. *)
Lemma connector_exit_spec (ex : Exit) (client_streams server_streams : MessageStream)
    (tg : nat) (mgr : ClientSession) (exc : option PyExc) (wb : World) :
  (forall exc wb, exists w',
      ex exc wb = (Ret false, w', releases client_streams server_streams)
      /\ all_closed w' client_streams server_streams
      /\ task_groups w' = task_groups wb) ->
  exists answer a_s exc' wc w',
    generator_exit (Y := ClientSession)
      (fun r => with_exit ex
                  (with_exit (task_group_aexit tg)
                     (try_finally
                        (with_exit (session_aexit mgr)
                           match r with
                           | None => Return tt
                           | Some e => Throw e
                           end)
                        (cancel tg)))) exc wb
    = (answer, w',
       [EvSessionExit mgr exc a_s; EvCancel tg;
        EvTaskGroupExit tg exc' (fst (TaskGroup_aexit tg exc' wc))]
         ++ releases client_streams server_streams)
    /\ cancel_called (task_groups wc tg) = true
    /\ all_closed w' client_streams server_streams.
Proof.
  intros Hex. unfold generator_exit.
  rewrite !drive_with_exit, drive_try_finally, drive_with_exit.
  assert (D : exists o, completed o /\
                drive (Y := ClientSession)
                  match exc with None => Return tt | Some e => Throw e end wb
                = (o, wb, []) /\ exc_of o = exc).
  { destruct exc as [e |]; eexists; (split; [| split; reflexivity]); exact I. }
  destruct D as (o & C & -> & X).
  rewrite after_exit_completed by exact C. rewrite X.
  unfold session_aexit at 1, call.
  destruct (ClientSession_aexit mgr exc wb) as [a_s ws].
  destruct (@teardown_spec ClientSession ex client_streams server_streams tg
              (exit_outcome o a_s) ws ([] ++ [EvSessionExit mgr exc a_s]) Hex
              (exit_outcome_completed o a_s))
    as (wc & a & w' & F & A & -> & AC).
  cbn [app]. subst a.
  destruct (exit_outcome (exit_outcome o a_s) _) as [[[] | y k] | e'];
    destruct exc as [e |]; try destruct (PyExc_eq_dec e' e);
    do 5 eexists; (split; [reflexivity |]); (split; [exact F | exact AC]).
Qed.

(** ** The paired channel factory *)

(** C6: the factory has no parameter, and on every invocation it creates
    exactly two streams, both with a buffer of one item. *)
Theorem streams_have_capacity_one :
  forall w : World,
    match asynccontextmanager create_client_server_memory_streams w with
    | (Ret ((client_streams, server_streams), _), w', t) =>
        t = [EvCreateStream (next_state w) 1 (snd server_streams) (fst client_streams);
             EvCreateStream (S (next_state w)) 1 (snd client_streams) (fst server_streams)]
        /\ max_buffer_size (states w' (send_stream_state w' (snd client_streams))) = 1
        /\ max_buffer_size (states w' (send_stream_state w' (snd server_streams))) = 1
        /\ send_stream_state w' (snd server_streams) = next_state w
        /\ send_stream_state w' (snd client_streams) = S (next_state w)
    | _ => False
    end.
Proof.
  intros w. cbn. unfold send_stream_state. store_simpl. repeat split.
Qed.

(** C1: the client pair and the server pair are mirrored over the same two
    streams: the client's send endpoint and the server's receive endpoint are
    bound to one state, the server's send endpoint and the client's receive
    endpoint to the other, and an item sent at one end is the item received
    at the other end, in both directions. *)
Theorem client_and_server_streams_mirrored :
  forall w : World,
    match asynccontextmanager create_client_server_memory_streams w with
    | (Ret ((client_streams, server_streams), _), w', _) =>
        let '(client_read, client_write) := client_streams in
        let '(server_read, server_write) := server_streams in
        send_stream_state w' client_write = receive_stream_state w' server_read
        /\ send_stream_state w' server_write = receive_stream_state w' client_read
        /\ send_stream_state w' client_write <> send_stream_state w' server_write
        /\ (forall item : Item,
              let '(o, w1, _) := send client_write item w' in
              o = Ret (Done tt)
              /\ fst (fst (receive server_read w1)) = Ret (Done item))
        /\ (forall item : Item,
              let '(o, w1, _) := send server_write item w' in
              o = Ret (Done tt)
              /\ fst (fst (receive client_read w1)) = Ret (Done item))
    | _ => False
    end.
Proof.
  intros w. cbn. unfold send_stream_state, receive_stream_state.
  store_simpl.
  split; [reflexivity |]. split; [reflexivity |].
  split; [apply Nat.neq_succ_diag_l |].
  split; intros item; unfold send, send_nowait; store_simpl;
    (split; [reflexivity |]);
    unfold receive, receive_nowait; store_simpl; reflexivity.
Qed.

(** C4: however the scope of the factory is left (the block returned, raised
    or was cancelled, which arrives as an exception) and whatever the block
    left in the buffers, the four endpoints are closed, each by exactly one
    close call, and the block's outcome is the outcome of the whole
    [async with]. *)
Theorem streams_closed_on_every_exit :
  forall (body : MessageStream * MessageStream -> M unit) (w : World),
    match asynccontextmanager create_client_server_memory_streams w with
    | (Ret ((client_streams, server_streams), _), w1, t1) =>
        let '(ob, wb, tb) := body (client_streams, server_streams) w1 in
        let '(o, w', t) :=
          exec (async_with (asynccontextmanager create_client_server_memory_streams)
                  (fun streams => perform (body streams))) w in
        o = ob
        /\ t = t1 ++ tb ++ [EvCloseSend (snd server_streams);
                            EvCloseReceive (fst server_streams);
                            EvCloseSend (snd client_streams);
                            EvCloseReceive (fst client_streams)]
        /\ snd server_streams <> snd client_streams
        /\ fst server_streams <> fst client_streams
        /\ send_closed w' (snd server_streams) = true
        /\ receive_closed w' (fst server_streams) = true
        /\ send_closed w' (snd client_streams) = true
        /\ receive_closed w' (fst client_streams) = true
    | _ => False
    end.
Proof.
  intros body w. unfold exec. rewrite drive_async_with.
  destruct (factory_spec w)
    as (client_streams & server_streams & ex & w1 & t1 & E & D1 & D2 & _ & _ & Hex).
  rewrite E. unfold perform. rewrite drive_Await.
  destruct (body (client_streams, server_streams) w1) as [[[[] | e] wb] tb];
    cbn [drive traced after_exit app];
    [destruct (Hex None wb) as (w' & E' & (C1 & C2 & C3 & C4) & _)
    | destruct (Hex (Some e) wb) as (w' & E' & (C1 & C2 & C3 & C4) & _)];
    rewrite E'; cbn; rewrite ?app_nil_r; repeat split; auto.
Qed.

Ltac case_innermost :=
  match goal with
  | |- context [match ?x with _ => _ end] =>
      lazymatch x with
      | context [match _ with _ => _ end] => fail
      | _ => destruct x
      end
  end.

Lemma receive_update_state (r : MemoryObjectReceiveStream) (q : nat)
    (f : MemoryObjectStreamState -> MemoryObjectStreamState) (w : World) :
  q <> receive_stream_state w r ->
  fst (fst (receive r (update_state q f w))) = fst (fst (receive r w)).
Proof.
  intros H. unfold receive, receive_nowait, receive_stream_state in *. cbn.
  rewrite store_set_ne by auto.
  repeat (case_innermost; cbn); reflexivity.
Qed.

Lemma send_frame (s : MemoryObjectSendStream) (r : MemoryObjectReceiveStream)
    (item : Item) (w : World) :
  send_stream_state w s <> receive_stream_state w r ->
  fst (fst (receive r (snd (fst (send s item w))))) = fst (fst (receive r w)).
Proof.
  intros H. unfold send, send_nowait. fold (send_stream_state w s).
  repeat (case_innermost; cbn [fst snd]);
    try reflexivity; now apply receive_update_state.
Qed.

(** C9: two invocations of the factory, the second made in any world in
    which the references of the first are still allocated, have distinct
    endpoints bound to distinct streams, and an item sent on an endpoint of
    one invocation changes nothing in what an endpoint of the other
    invocation receives. *)
Theorem invocations_are_isolated :
  forall (w wa : World) client1 server1 ex1 w1 t1 client2 server2 ex2 w2 t2,
    asynccontextmanager create_client_server_memory_streams w
    = (Ret ((client1, server1), ex1), w1, t1) ->
    allocated_le w1 wa ->
    asynccontextmanager create_client_server_memory_streams wa
    = (Ret ((client2, server2), ex2), w2, t2) ->
    (forall r1 r2, In r1 [fst client1; fst server1] ->
                   In r2 [fst client2; fst server2] -> r1 <> r2)
    /\ (forall s1 s2, In s1 [snd client1; snd server1] ->
                      In s2 [snd client2; snd server2] -> s1 <> s2)
    /\ forall wc : World,
        bound_as w1 wc client1 -> bound_as w1 wc server1 ->
        bound_as w2 wc client2 -> bound_as w2 wc server2 ->
        (forall s r (item : Item),
            In s [snd client2; snd server2] -> In r [fst client1; fst server1] ->
            send_stream_state wc s <> receive_stream_state wc r
            /\ fst (fst (receive r (snd (fst (send s item wc)))))
               = fst (fst (receive r wc)))
        /\ (forall s r (item : Item),
               In s [snd client1; snd server1] -> In r [fst client2; fst server2] ->
               send_stream_state wc s <> receive_stream_state wc r
               /\ fst (fst (receive r (snd (fst (send s item wc)))))
                  = fst (fst (receive r wc))).
Proof.
  intros w wa client1 server1 ex1 w1 t1 client2 server2 ex2 w2 t2 H1 (L1 & L2 & L3) H2.
  cbn in H1, H2. inversion H1; subst; clear H1. inversion H2; subst; clear H2.
  cbn in L1, L2, L3.
  split; [| split].
  - cbn. intros r1 r2 [<- | [<- | []]] [<- | [<- | []]]; intros [= E]; lia.
  - cbn. intros s1 s2 [<- | [<- | []]] [<- | [<- | []]]; intros [= E]; lia.
  - intros wc (B1 & B2) (B3 & B4) (B5 & B6) (B7 & B8).
    unfold send_stream_state, receive_stream_state in B1, B2, B3, B4, B5, B6, B7, B8.
    cbn in B1, B2, B3, B4, B5, B6, B7, B8. unfold store_set in *.
    rewrite ?Nat.eqb_refl, ?eqb_succ_l, ?eqb_succ_r in *.
    cbn in B1, B2, B3, B4, B5, B6, B7, B8.
    split; intros s r item [<- | [<- | []]] [<- | [<- | []]];
      match goal with
      | |- ?N /\ _ =>
          assert (HN : N)
            by (unfold send_stream_state, receive_stream_state; cbn;
                rewrite ?B1, ?B2, ?B3, ?B4, ?B5, ?B6, ?B7, ?B8; lia);
          split; [exact HN | apply send_frame; exact HN]
      end.
Qed.

(** A write on an open direction is accepted: it is handed to a parked
    reader, or it joins the items the stream holds, at the end. *)
Lemma send_step (s : MemoryObjectSendStream) (r : MemoryObjectReceiveStream)
    (q : nat) (item : Item) (w : World) :
  open_link s r q w ->
  let '(o, w1, t1) := send s item w in
  open_link s r q w1
  /\ (exists a, o = Ret a)
  /\ ((exists n, waiting_receivers (states w q) = S n
                 /\ waiting_receivers (states w1 q) = n
                 /\ pending (states w q) = []
                 /\ pending (states w1 q) = []
                 /\ handed_over q t1 = [item])
      \/ (waiting_receivers (states w q) = 0
          /\ waiting_receivers (states w1 q) = 0
          /\ pending (states w1 q) = pending (states w q) ++ [item]
          /\ handed_over q t1 = [])).
Proof.
  unfold open_link, send_closed, send_stream_state, receive_closed,
    receive_stream_state, queue_ok.
  intros (C1 & B1 & C2 & B2 & OS & OR & I1 & I2).
  unfold send, send_nowait. rewrite C1, B1.
  apply Z.eqb_neq in OR as OR'. rewrite OR'.
  unfold pending in *.
  destruct (waiting_receivers (states w q)) as [| n] eqn:W.
  - destruct (Nat.ltb_spec (List.length (buffer (states w q)))
                (max_buffer_size (states w q))) as [L | L];
      cbn; rewrite store_set_eq, ?Nat.eqb_refl; cbn; rewrite ?W.
    + assert (E : waiting_senders (states w q) = []).
      { destruct (waiting_senders (states w q)) eqn:E; [reflexivity |].
        assert (max_buffer_size (states w q) <= List.length (buffer (states w q)))
          by (apply I2; discriminate). lia. }
      rewrite E, !app_nil_r.
      split; [| split; [eauto | right; repeat split]].
      repeat split; auto; congruence.
    + split; [| split; [eauto | right; repeat split; now rewrite app_assoc]].
      repeat split; auto; try congruence.
  - destruct I1 as [B S0]; [discriminate |].
    cbn; rewrite store_set_eq, ?Nat.eqb_refl; cbn. rewrite B, S0. cbn.
    split; [| split; [eauto | left; exists n; repeat split]].
    repeat split; auto; congruence.
Qed.

(** A read on an open direction returns the first item the stream holds, or
    parks the reader when it holds none. *)
Lemma receive_step (s : MemoryObjectSendStream) (r : MemoryObjectReceiveStream)
    (q : nat) (w : World) :
  open_link s r q w ->
  let '(o, w1, _) := receive r w in
  open_link s r q w1
  /\ ((exists x rest, pending (states w q) = x :: rest
                      /\ o = Ret (Done x)
                      /\ pending (states w1 q) = rest
                      /\ waiting_receivers (states w q) = 0
                      /\ waiting_receivers (states w1 q) = 0)
      \/ (pending (states w q) = []
          /\ o = Ret Suspended
          /\ pending (states w1 q) = []
          /\ waiting_receivers (states w1 q) = S (waiting_receivers (states w q)))).
Proof.
  unfold open_link, send_closed, send_stream_state, receive_closed,
    receive_stream_state, queue_ok.
  intros (C1 & B1 & C2 & B2 & OS & OR & I1 & I2).
  unfold receive, receive_nowait. rewrite C2, B2.
  apply Z.eqb_neq in OS as OS'.
  unfold pending in *.
  assert (W0 : buffer (states w q) ++ waiting_senders (states w q) <> [] ->
               waiting_receivers (states w q) = 0).
  { intros H. destruct (waiting_receivers (states w q)) eqn:W; [reflexivity |].
    destruct I1 as [B S0]; [discriminate |]. rewrite B, S0 in H. now contradiction H. }
  destruct (waiting_senders (states w q)) as [| parked rest] eqn:S0.
  - destruct (buffer (states w q)) as [| item b] eqn:B.
    + rewrite OS'. cbn. rewrite store_set_eq. cbn. rewrite ?B, ?S0.
      split; [| right; repeat split].
      repeat split; auto; congruence.
    + assert (W : waiting_receivers (states w q) = 0) by (apply W0; discriminate).
      cbn. rewrite store_set_eq. cbn. rewrite S0, app_nil_r in *.
      split; [| left; exists item, b; repeat split; auto].
      repeat split; auto; try congruence; discriminate.
  - assert (L : max_buffer_size (states w q) <= List.length (buffer (states w q)))
      by (apply I2; discriminate).
    assert (W : waiting_receivers (states w q) = 0)
      by (apply W0; destruct (buffer (states w q)); discriminate).
    destruct (buffer (states w q)) as [| item b] eqn:B;
      cbn; rewrite store_set_eq; cbn.
    + split; [| left; exists parked, rest; repeat split; auto].
      repeat split; auto; try congruence; try discriminate; cbn in L; lia.
    + split; [| left; exists item, (b ++ parked :: rest); repeat split; auto;
                now rewrite <- app_assoc].
      repeat split; auto; try congruence; try discriminate;
        rewrite length_app; cbn in *; lia.
Qed.

(** What a schedule shows on an open direction, from any well-formed state
    of the queue: every write is accepted, and with [n] readers parked at the
    start the reading side is given the first [n + reads] of the items held
    at the start followed by the items written, in that order; the stream
    keeps the rest. *)
Lemma observe_spec (s : MemoryObjectSendStream) (r : MemoryObjectReceiveStream)
    (q : nat) (ops : list StreamOp) :
  forall w : World,
    open_link s r q w ->
    let '(accepted, given, wf) := observe s r ops w in
    let n := waiting_receivers (states w q) + reads_started ops in
    let items := pending (states w q) ++ written_items ops in
    accepted = written_items ops
    /\ given = firstn n items
    /\ pending (states wf q) = skipn n items
    /\ wf = fst (run_ops s r ops w).
Proof.
  induction ops as [| [item |] ops IH]; intros w L.
  - cbn. rewrite Nat.add_0_r, app_nil_r.
    destruct L as (_ & _ & _ & _ & _ & _ & I1 & _).
    destruct (waiting_receivers (states w q)) as [| n] eqn:W.
    + cbn. repeat split.
    + destruct I1 as [B S0]; [discriminate |]. unfold pending. rewrite B, S0.
      cbn. repeat split.
  - pose proof (send_step item L) as St.
    cbn [observe run_ops written_items reads_started].
    destruct L as (C1 & B1 & L').
    rewrite B1.
    destruct (send s item w) as [[o w1] t1].
    destruct St as (L1 & (a & ->) & Cases).
    specialize (IH w1 L1).
    destruct (observe s r ops w1) as [[acc given] wf].
    destruct (run_ops s r ops w1) as [wf' t2].
    cbv zeta in IH |- *. destruct IH as (-> & -> & -> & ->). cbn [fst app].
    destruct Cases as [(n & W & W1 & P & P1 & G) | (W & W1 & P1 & G)];
      rewrite W, W1, G, ?P, ?P1.
    + cbn. repeat split.
    + cbn [app Nat.add].
      rewrite <- !app_assoc. cbn [app]. repeat split.
  - pose proof (receive_step L) as St.
    cbn [observe run_ops written_items reads_started].
    destruct (receive r w) as [[o w1] t1].
    destruct St as (L1 & Cases).
    specialize (IH w1 L1).
    destruct (observe s r ops w1) as [[acc given] wf].
    destruct (run_ops s r ops w1) as [wf' t2].
    cbv zeta in IH |- *. destruct IH as (-> & -> & -> & ->). cbn [fst].
    destruct Cases as [(x & rest & P & -> & P1 & W & W1) | (P & -> & P1 & W1)];
      rewrite ?W, W1, P, P1.
    + cbn. repeat split.
    + rewrite Nat.add_succ_r. cbn. repeat split.
Qed.

(** The same from a direction that is open and empty, with nobody parked. *)
Lemma observe_from_empty (s : MemoryObjectSendStream) (r : MemoryObjectReceiveStream)
    (ops : list StreamOp) (w : World) :
  open_link s r (send_stream_state w s) w ->
  pending (states w (send_stream_state w s)) = [] ->
  waiting_receivers (states w (send_stream_state w s)) = 0 ->
  let '(accepted, given, wf) := observe s r ops w in
  accepted = written_items ops
  /\ given = firstn (reads_started ops) (written_items ops)
  /\ pending (states wf (send_stream_state w s))
     = skipn (reads_started ops) (written_items ops)
  /\ written_items ops = given ++ pending (states wf (send_stream_state w s))
  /\ wf = fst (run_ops s r ops w).
Proof.
  intros L P W. pose proof (observe_spec ops L) as O.
  destruct (observe s r ops w) as [[accepted given] wf].
  cbv zeta in O. rewrite P, W in O. cbn [app Nat.add] in O.
  destruct O as (-> & -> & Q & ->). rewrite Q.
  repeat (split; [reflexivity |]).
  split; [symmetry; apply firstn_skipn | reflexivity].
Qed.

(** C7: on either direction of the link, for every schedule of writes by one
    side and reads by the other started while the scope is open: every write
    is accepted; the reading side is given, in this order, the first items
    written, as many as reads were started (or all of them, when fewer were
    written); and the stream still holds the items written after those, in
    write order.  So the items written are exactly the items given to the
    reader followed by the items still held: nothing is reordered,
    duplicated or lost, and an item is given to one reader only. *)
Theorem streams_deliver_in_write_order :
  forall (w : World) (ops : list StreamOp),
    match asynccontextmanager create_client_server_memory_streams w with
    | (Ret ((client_streams, server_streams), _), w', _) =>
        (let '(accepted, given, wf) :=
           observe (snd client_streams) (fst server_streams) ops w' in
         accepted = written_items ops
         /\ given = firstn (reads_started ops) (written_items ops)
         /\ pending (states wf (send_stream_state w' (snd client_streams)))
            = skipn (reads_started ops) (written_items ops)
         /\ written_items ops
            = given ++ pending (states wf (send_stream_state w' (snd client_streams)))
         /\ wf = fst (run_ops (snd client_streams) (fst server_streams) ops w'))
        /\ (let '(accepted, given, wf) :=
              observe (snd server_streams) (fst client_streams) ops w' in
            accepted = written_items ops
            /\ given = firstn (reads_started ops) (written_items ops)
            /\ pending (states wf (send_stream_state w' (snd server_streams)))
               = skipn (reads_started ops) (written_items ops)
            /\ written_items ops
               = given ++ pending (states wf (send_stream_state w' (snd server_streams)))
            /\ wf = fst (run_ops (snd server_streams) (fst client_streams) ops w'))
    | _ => False
    end.
Proof.
  intros w ops. cbn -[observe run_ops send_stream_state pending].
  split; apply observe_from_empty;
    unfold open_link, pending, send_closed, send_stream_state, receive_closed,
      receive_stream_state, queue_ok;
    store_simpl; repeat split; try discriminate; try congruence.
Qed.

(** C10: both streams are created with element type
    [JSONRPCMessage | Exception], which every item inhabits, and so is the
    declared element type of the receive component of [MessageStream]; the
    declared element type of its send component is [JSONRPCMessage], which a
    message inhabits and an exception does not. *)
Theorem message_stream_types_asymmetric :
  (forall w : World,
      match asynccontextmanager create_client_server_memory_streams w with
      | (Ret ((client_streams, server_streams), _), w', _) =>
          item_type (states w' (receive_stream_state w' (fst client_streams)))
          = TUnion TJSONRPCMessage TException
          /\ item_type (states w' (receive_stream_state w' (fst server_streams)))
             = TUnion TJSONRPCMessage TException
      | _ => False
      end)
  /\ MessageStream_receive_type = stream_item_type
  /\ (forall v : Item, accepts MessageStream_receive_type v = true)
  /\ (forall m : JSONRPCMessage, accepts MessageStream_send_type (inl m) = true)
  /\ (forall e : PyExc, accepts MessageStream_send_type (inr e) = false).
Proof.
  repeat split.
  - cbn. unfold receive_stream_state. store_simpl. reflexivity.
  - cbn. unfold receive_stream_state. store_simpl. reflexivity.
  - intros [m | e]; reflexivity.
Qed.

(** ** The session connector *)

Lemma factory_trace_creates (w : World)
    (o : Outcome (MessageStream * MessageStream * Exit)) (w1 : World)
    (t1 : list Event) :
  asynccontextmanager create_client_server_memory_streams w = (o, w1, t1) ->
  exists q s r q' s' r',
    t1 = [EvCreateStream q 1 s r; EvCreateStream q' 1 s' r'].
Proof. cbn. intros [= <- <- <-]. do 6 eexists. reflexivity. Qed.

Lemma start_result_started (server : Server) (server_read : MemoryObjectReceiveStream)
    (server_write : MemoryObjectSendStream) (raise_exceptions : bool) (tg : nat)
    (t : list Event) :
  start_result server server_read server_write raise_exceptions tg (Ret tt) t ->
  exists opts coro,
    t = [EvCreateInitializationOptions server (Ret opts);
         EvServerRun server server_read server_write opts raise_exceptions (Ret coro);
         EvStartSoon tg coro].
Proof. intros R. inversion R. eauto. Qed.

Lemma start_result_failed (server : Server) (server_read : MemoryObjectReceiveStream)
    (server_write : MemoryObjectSendStream) (raise_exceptions : bool) (tg : nat)
    (e : PyExc) (t : list Event) :
  start_result server server_read server_write raise_exceptions tg (Raise e) t ->
  t = [EvCreateInitializationOptions server (Raise e)]
  \/ exists opts,
      t = [EvCreateInitializationOptions server (Ret opts);
           EvServerRun server server_read server_write opts raise_exceptions (Raise e)].
Proof. intros R. inversion R; eauto. Qed.

Lemma session_result_events (read_stream : MemoryObjectReceiveStream)
    (write_stream : MemoryObjectSendStream) (read_timeout_seconds : option timedelta)
    (o : Outcome (Suspension ClientSession unit)) (t : list Event) :
  session_result read_stream write_stream read_timeout_seconds o t ->
  forall ev, In ev t -> session_event ev.
Proof.
  intros R ev HIn. destruct R; cbn in HIn;
    repeat (destruct HIn as [<- | HIn]; [exact I |]); contradiction.
Qed.

Lemma session_result_handshake_inv (read_stream : MemoryObjectReceiveStream)
    (write_stream : MemoryObjectSendStream) (read_timeout_seconds : option timedelta)
    (o : Outcome (Suspension ClientSession unit)) (t : list Event)
    (session : ClientSession) (e : PyExc) :
  session_result read_stream write_stream read_timeout_seconds o t ->
  In (EvInitialize session (Raise e)) t ->
  exists mgr w,
    o = exit_outcome (Raise e) (fst (ClientSession_aexit mgr (Some e) w))
    /\ t = [EvClientSession read_stream write_stream read_timeout_seconds (Ret mgr);
            EvSessionEnter mgr (Ret session);
            EvInitialize session (Raise e);
            EvSessionExit mgr (Some e) (fst (ClientSession_aexit mgr (Some e) w))].
Proof.
  intros R HIn. destruct R as [e0 | mgr e0 | mgr s e0 w a | mgr s]; cbn in HIn;
    repeat (destruct HIn as [HIn | HIn]; try discriminate); try contradiction.
  injection HIn as -> ->. exists mgr, w. split; reflexivity.
Qed.

Lemma session_result_constructor_first (read_stream : MemoryObjectReceiveStream)
    (write_stream : MemoryObjectSendStream) (read_timeout_seconds : option timedelta)
    (o : Outcome (Suspension ClientSession unit)) (t : list Event) :
  session_result read_stream write_stream read_timeout_seconds o t ->
  exists oc rest,
    t = EvClientSession read_stream write_stream read_timeout_seconds oc :: rest
    /\ forall rd wr t' o', ~ In (EvClientSession rd wr t' o') rest.
Proof.
  intros R. destruct R; do 2 eexists; (split; [reflexivity |]);
    intros rd wr t' o' HIn; cbn in HIn;
    repeat (destruct HIn as [HIn | HIn]; try discriminate); contradiction.
Qed.

Lemma session_result_setup_failure_inv (read_stream : MemoryObjectReceiveStream)
    (write_stream : MemoryObjectSendStream) (read_timeout_seconds : option timedelta)
    (o : Outcome (Suspension ClientSession unit)) (t : list Event) (e : PyExc) :
  session_result read_stream write_stream read_timeout_seconds o t ->
  (exists rd wr t', In (EvClientSession rd wr t' (Raise e)) t)
  \/ (exists mgr, In (EvSessionEnter mgr (Raise e)) t) ->
  o = Raise e
  /\ (forall s a, ~ In (EvInitialize s a) t)
  /\ (forall m x a, ~ In (EvSessionExit m x a) t).
Proof.
  intros R H.
  destruct R as [e0 | mgr e0 | mgr s e0 w a | mgr s];
    destruct H as [(rd & wr & t' & HIn) | (mgr' & HIn)]; cbn in HIn;
    repeat (destruct HIn as [HIn | HIn]; try discriminate); try contradiction.
  - injection HIn as _ _ _ ->. split; [reflexivity |].
    split; repeat intro;
      match goal with HI : In _ _ |- _ => cbn in HI; intuition discriminate end.
  - injection HIn as _ ->. split; [reflexivity |].
    split; repeat intro;
      match goal with HI : In _ _ |- _ => cbn in HI; intuition discriminate end.
Qed.

(** Entering a generator that ran to its end raises. *)
Lemma entering_raises {Y A} (o : Outcome (Suspension Y unit)) :
  exists e',
    match o with
    | Raise e => Raise e
    | Ret _ => Raise (RuntimeError "generator didn't yield")
    end = Raise (A := A) e'.
Proof. destruct o; eauto. Qed.

Lemma lets_through_outcome {Y} (e : PyExc) (a : Outcome bool) :
  lets_through e a -> exit_outcome (Y := Y) (Raise e) a = Raise e.
Proof. intros [-> | ->]; reflexivity. Qed.

(** Case analysis on the membership of an event in a trace built with [++]
    and [::]. *)
Ltac in_cases H :=
  repeat first
    [ apply in_app_or in H; destruct H as [H | H]
    | cbn [In releases app] in H; destruct H as [H | H] ];
  try discriminate H; try contradiction.

(** An event that is no session event is in no trace of the session block. *)
Ltac not_in_session R H :=
  apply (session_result_events R) in H; exfalso; exact H.

(** Two traces that differ in the nesting of [++] only. *)
Ltac trace_eq := repeat rewrite <- app_assoc; cbn [app]; reflexivity.

(** A caller's [async with cm as x: body(x)], run to its end. *)
Lemma exec_async_with {X} (cm : ContextManager X) (body : X -> M unit) (w : World) :
  exec (async_with cm (fun x => perform (body x))) w
  = match cm w with
    | (Ret (x, ex), w1, t1) =>
        let '(ob, wb, tb) := body x w1 in
        let '(a, w2, t2) := ex (exc_of ob) wb in
        (match ob, a with
         | Ret _, Ret _ => Ret tt
         | Ret _, Raise e' => Raise e'
         | Raise _, Ret true => Ret tt
         | Raise e, Ret false => Raise e
         | Raise _, Raise e' => Raise e'
         end, w2, t1 ++ tb ++ t2)
    | (Raise e, w1, t1) => (Raise e, w1, t1)
    end.
Proof.
  unfold exec. rewrite drive_async_with.
  destruct (cm w) as [[[[x ex] | e] w1] t1]; [| reflexivity].
  unfold perform. rewrite drive_Await.
  destruct (body x w1) as [[[[] | e] wb] tb]; cbn [drive traced after_exit exc_of].
  - destruct (ex None wb) as [[[b | e'] w2] t2]; cbn; now rewrite app_nil_r.
  - destruct (ex (Some e) wb) as [[[[|] | e'] w2] t2]; cbn; now rewrite app_nil_r.
Qed.

(** What the [__aexit__] of the connector answers: the exception of the
    block goes through the session's [__aexit__], then (after the cancel)
    through the task group's, and the closes change nothing in it. *)
Lemma connector_exit_outcome (ex : Exit) (client_streams server_streams : MessageStream)
    (tg : nat) (mgr : ClientSession) (exc : option PyExc) (wb : World) :
  (forall exc wb, exists w',
      ex exc wb = (Ret false, w', releases client_streams server_streams)
      /\ all_closed w' client_streams server_streams
      /\ task_groups w' = task_groups wb) ->
  exists wc w' t',
    let o_b : Outcome (Suspension ClientSession unit) :=
      match exc with None => Ret (Finished tt) | Some e => Raise e end in
    let o1 := exit_outcome o_b (fst (ClientSession_aexit mgr exc wb)) in
    let o2 := exit_outcome o1 (fst (TaskGroup_aexit tg (exc_of o1) wc)) in
    generator_exit (Y := ClientSession)
      (fun r => with_exit ex
                  (with_exit (task_group_aexit tg)
                     (try_finally
                        (with_exit (session_aexit mgr)
                           match r with
                           | None => Return tt
                           | Some e => Throw e
                           end)
                        (cancel tg)))) exc wb
    = (match o2 with
       | Ret _ => Ret (match exc with Some _ => true | None => false end)
       | Raise e' =>
           match exc with
           | Some e => if PyExc_eq_dec e' e then Ret false else Raise e'
           | None => Raise e'
           end
       end, w', t').
Proof.
  intros Hex. unfold generator_exit.
  rewrite !drive_with_exit, drive_try_finally, drive_with_exit.
  assert (D : exists o, completed o /\
                drive (Y := ClientSession)
                  match exc with None => Return tt | Some e => Throw e end wb
                = (o, wb, []) /\ exc_of o = exc
                /\ o = match exc with None => Ret (Finished tt) | Some e => Raise e end).
  { destruct exc as [e |]; eexists; (split; [| split; [| split]; reflexivity]); exact I. }
  destruct D as (o & C & -> & X & Q).
  rewrite after_exit_completed by exact C. rewrite X.
  unfold session_aexit at 1, call.
  destruct (ClientSession_aexit mgr exc wb) as [a_s ws] eqn:S0.
  destruct (@teardown_spec ClientSession ex client_streams server_streams tg
              (exit_outcome o a_s) ws ([] ++ [EvSessionExit mgr exc a_s]) Hex
              (exit_outcome_completed o a_s))
    as (wc & a & w' & F & A & -> & AC).
  exists wc, w'. eexists. cbv zeta. cbn [fst]. rewrite <- Q, <- A.
  pose proof (exit_outcome_completed (exit_outcome o a_s) a) as C2.
  destruct (exit_outcome (exit_outcome o a_s) a) as [[[] | y k] | e'];
    [| contradiction |]; destruct exc as [e |]; try destruct (PyExc_eq_dec e' e);
    reflexivity.
Qed.

(** The theorems on the connector take all their arguments explicitly. *)
Unset Implicit Arguments.


(** C3: the server task is signalled for cancellation on every exit.  For
    every coroutine the connector made a task of its group on entry, and
    however the scope is then left (the session could not be constructed,
    entered or initialized, or the block returned, raised or was cancelled,
    which arrives as an exception), the whole run ends with: the cancel of
    that group, the group's [__aexit__], called in a world in which the
    cancel scope of the group is cancelled, and the four closes.  Nothing is
    cancelled before the task is started.  The server task exists from the
    moment [start_soon] returned; every failure of the setup that the scope
    can be left by afterwards comes later. *)
Theorem server_task_cancelled_on_every_exit :
  forall (server : Server) (read_timeout_seconds : option timedelta)
         (raise_exceptions : bool) (body : ClientSession -> M unit) (w : World)
         (oe : Outcome (ClientSession * Exit)) (we : World) (te : list Event)
         (tg : nat) (coro : Coroutine),
    asynccontextmanager
      (create_connected_server_and_client_session
         server read_timeout_seconds raise_exceptions) w
    = (oe, we, te) ->
    In (EvStartSoon tg coro) te ->
    match asynccontextmanager create_client_server_memory_streams w with
    | (Ret ((client_streams, server_streams), _), _, _) =>
        let '(_, _, tr) :=
          exec (async_with
                  (asynccontextmanager
                     (create_connected_server_and_client_session
                        server read_timeout_seconds raise_exceptions))
                  (fun client_session => perform (body client_session))) w in
        exists t0 t2 exc wc,
          tr = t0 ++ [EvStartSoon tg coro] ++ t2
                  ++ [EvCancel tg;
                      EvTaskGroupExit tg exc (fst (TaskGroup_aexit tg exc wc))]
                  ++ releases client_streams server_streams
          /\ cancel_called (task_groups wc tg) = true
          /\ In (EvTaskGroupEnter tg) t0
          /\ (forall tg', ~ In (EvCancel tg') t0)
    | _ => False
    end.
Proof.
  intros server read_timeout_seconds raise_exceptions body w oe we te tg coro H HIn.
  destruct (connector_enter_cases server read_timeout_seconds raise_exceptions w)
    as (cs & ss & ex0 & w1 & t1 & w2 & t2 & o & w0 & tr0 & E & Hex & X & ST & Cases).
  rewrite exec_async_with, X. rewrite X in H. injection H as -> -> ->.
  rewrite E. destruct (factory_trace_creates E) as (q & s & r & q' & s' & r' & ->).
  cbv zeta in Cases.
  destruct Cases as [(e & SR & -> & -> & _)
                    | [(os & t3 & wc & SR & R & F & C & FC & -> & -> & _)
                      | (mgr & session & SR & OC & -> & ->)]].
  - exfalso. apply start_result_failed in SR. destruct SR as [-> | (opts & ->)];
      in_cases HIn.
  - apply start_result_started in SR as (opts & coro0 & ->).
    assert (Q : tg = next_task_group w /\ coro = coro0).
    { in_cases HIn; [now injection HIn | not_in_session R HIn]. }
    destruct Q as (-> & ->).
    destruct (exit_outcome os _); cbn [fst snd];
      exists ([EvCreateStream q 1 s r; EvCreateStream q' 1 s' r']
                ++ [EvTaskGroupEnter (next_task_group w);
                    EvCreateInitializationOptions server (Ret opts);
                    EvServerRun server (fst ss) (snd ss) opts raise_exceptions
                      (Ret coro0)]),
        t3, (exc_of os), wc;
      (split; [trace_eq |]); (split; [exact FC |]);
      (split; [cbn; auto |]); intros tg' HC; in_cases HC.
  - apply start_result_started in SR as (opts & coro0 & ->).
    assert (Q : tg = next_task_group w /\ coro = coro0).
    { in_cases HIn. now injection HIn. }
    destruct Q as (-> & ->).
    destruct (body session we) as [[ob wb] tb].
    destruct (@connector_exit_spec ex0 cs ss (next_task_group w) mgr (exc_of ob) wb Hex)
      as (answer & a_s & exc' & wc & wf & XX & FC & _).
    rewrite XX.
    exists ([EvCreateStream q 1 s r; EvCreateStream q' 1 s' r']
              ++ [EvTaskGroupEnter (next_task_group w);
                  EvCreateInitializationOptions server (Ret opts);
                  EvServerRun server (fst ss) (snd ss) opts raise_exceptions
                    (Ret coro0)]),
      ([EvClientSession (fst cs) (snd cs) read_timeout_seconds (Ret mgr);
        EvSessionEnter mgr (Ret session); EvInitialize session (Ret tt)]
         ++ tb ++ [EvSessionExit mgr (exc_of ob) a_s]),
      exc', wc.
    split; [trace_eq |]. split; [exact FC |].
    split; [cbn; auto |]. intros tg' HC; in_cases HC.
Qed.

(** C5: if the handshake fails, entering the connector raises and hands no
    session over.  The failure is handed to the [__aexit__] of the session;
    what that leaves goes through the [finally], which cancels the task group
    of the server task, and is handed to the [__aexit__] of the task group,
    called in a world in which the cancel scope is cancelled; then the four
    endpoints are closed.  What the caller gets is decided by those two
    [__aexit__]: the exception the task group's [__aexit__] raises, else the
    one it was handed and declined to suppress, else (when the failure was
    suppressed) [RuntimeError("generator didn't yield")].  It is the failure
    of the handshake itself when both let it through. *)
Theorem handshake_failure_propagates :
  forall (server : Server) (read_timeout_seconds : option timedelta)
         (raise_exceptions : bool) (w : World)
         (o : Outcome (ClientSession * Exit)) (w' : World) (tr : list Event)
         (session : ClientSession) (e : PyExc),
    asynccontextmanager
      (create_connected_server_and_client_session
         server read_timeout_seconds raise_exceptions) w
    = (o, w', tr) ->
    In (EvInitialize session (Raise e)) tr ->
    match asynccontextmanager create_client_server_memory_streams w with
    | (Ret ((client_streams, server_streams), _), _, _) =>
        exists t0 mgr tg coro ws wc,
          let a_s := fst (ClientSession_aexit mgr (Some e) ws) in
          let o1 := exit_outcome (Y := ClientSession) (Raise e) a_s in
          let a_tg := fst (TaskGroup_aexit tg (exc_of o1) wc) in
          tr = t0 ++ [EvInitialize session (Raise e);
                      EvSessionExit mgr (Some e) a_s;
                      EvCancel tg;
                      EvTaskGroupExit tg (exc_of o1) a_tg]
                  ++ releases client_streams server_streams
          /\ In (EvStartSoon tg coro) t0
          /\ cancel_called (task_groups wc tg) = true
          /\ all_closed w' client_streams server_streams
          /\ o = match exit_outcome o1 a_tg with
                 | Raise e' => Raise e'
                 | Ret _ => Raise (RuntimeError "generator didn't yield")
                 end
          /\ (exists e', o = Raise e')
          /\ (lets_through e a_s -> lets_through e a_tg -> o = Raise e)
    | _ => False
    end.
Proof.
  intros server read_timeout_seconds raise_exceptions w o w' tr session e H HIn.
  destruct (connector_enter_cases server read_timeout_seconds raise_exceptions w)
    as (cs & ss & ex0 & w1 & t1 & w2 & t2 & o0 & w0 & tr0 & E & Hex & X & ST & Cases).
  rewrite X in H. injection H as -> -> ->.
  rewrite E. destruct (factory_trace_creates E) as (q & s & r & q' & s' & r' & ->).
  cbv zeta in Cases.
  destruct Cases as [(e0 & SR & -> & -> & _)
                    | [(os & t3 & wc & SR & R & F & C & FC & -> & -> & AC)
                      | (mgr & session0 & SR & OC & -> & ->)]].
  - exfalso. apply start_result_failed in SR. destruct SR as [-> | (opts & ->)];
      in_cases HIn.
  - apply start_result_started in SR as (opts & coro & ->).
    assert (HIn3 : In (EvInitialize session (Raise e)) t3) by (in_cases HIn; exact HIn).
    destruct (session_result_handshake_inv session e R HIn3) as (mgr & ws & -> & ->).
    exists ([EvCreateStream q 1 s r; EvCreateStream q' 1 s' r']
              ++ [EvTaskGroupEnter (next_task_group w);
                  EvCreateInitializationOptions server (Ret opts);
                  EvServerRun server (fst ss) (snd ss) opts raise_exceptions (Ret coro);
                  EvStartSoon (next_task_group w) coro;
                  EvClientSession (fst cs) (snd cs) read_timeout_seconds (Ret mgr);
                  EvSessionEnter mgr (Ret session)]),
      mgr, (next_task_group w), coro, ws, wc.
    cbv zeta.
    split; [trace_eq |]. split; [cbn; auto 10 |]. split; [exact FC |].
    split; [exact AC |]. split; [reflexivity |].
    split; [apply entering_raises |].
    intros [Q1 | Q1]; rewrite Q1; cbn [exit_outcome exc_of];
      intros [Q2 | Q2]; rewrite Q2; reflexivity.
  - exfalso. apply start_result_started in SR as (opts & coro & ->).
    in_cases HIn.
Qed.

(** C8: what [tg.start_soon(lambda: server.run(...))] does in the connector.
    Right after the task group is entered, the callable asks the server given
    to the connector for its initialization options; when it gets them, it
    calls that server's [run] with the server-side endpoint pair of the
    factory, those options and the [raise_exceptions] given to the connector;
    and the coroutine that call returns is made a task of the group: it is
    the last task of the group in the world in which the connector goes on,
    with the construction of the session.  None of the three is done a
    second time, and when one of the two calls raises, what follows it is not
    done at all. *)
Theorem server_task_runs_server_with_its_streams :
  forall (server : Server) (read_timeout_seconds : option timedelta)
         (raise_exceptions : bool) (w : World),
    match asynccontextmanager create_client_server_memory_streams w with
    | (Ret ((client_streams, server_streams), _), _, t1) =>
        let '(server_read, server_write) := server_streams in
        let '(_, _, tr) :=
          asynccontextmanager
            (create_connected_server_and_client_session
               server read_timeout_seconds raise_exceptions) w in
        exists tg o_opts after_options,
          tr = t1 ++ [EvTaskGroupEnter tg;
                      EvCreateInitializationOptions server o_opts]
                  ++ after_options
          /\ (forall ev, In ev t1 ->
                exists q size s r, ev = EvCreateStream q size s r)
          /\ (forall s o, ~ In (EvCreateInitializationOptions s o) after_options)
          /\ match o_opts with
             | Raise _ =>
                 (forall s rd wr op rx o,
                     ~ In (EvServerRun s rd wr op rx o) after_options)
                 /\ (forall tg' c, ~ In (EvStartSoon tg' c) after_options)
             | Ret opts =>
                 exists o_run after_run,
                   after_options
                   = EvServerRun server server_read server_write opts
                       raise_exceptions o_run :: after_run
                   /\ (forall s rd wr op rx o,
                         ~ In (EvServerRun s rd wr op rx o) after_run)
                   /\ match o_run with
                      | Raise _ => forall tg' c, ~ In (EvStartSoon tg' c) after_run
                      | Ret coro =>
                          exists w2 rest,
                            after_run
                            = EvStartSoon tg coro
                              :: EvClientSession (fst client_streams)
                                   (snd client_streams) read_timeout_seconds
                                   (fst (ClientSession_new (fst client_streams)
                                           (snd client_streams)
                                           read_timeout_seconds w2))
                              :: rest
                            /\ (exists l, tasks (task_groups w2 tg) = l ++ [coro])
                            /\ (forall tg' c, ~ In (EvStartSoon tg' c) rest)
                      end
             end
    | _ => False
    end.
Proof.
  intros server read_timeout_seconds raise_exceptions w.
  destruct (connector_enter_cases server read_timeout_seconds raise_exceptions w)
    as (cs & [server_read server_write] & ex0 & w1 & t1 & w2 & t2 & o0 & w0 & tr0
        & E & Hex & X & ST & Cases).
  rewrite E, X. destruct (factory_trace_creates E) as (q & s & r & q' & s' & r' & ->).
  assert (N1 : forall ev, In ev [EvCreateStream q 1 s r; EvCreateStream q' 1 s' r'] ->
                 exists q0 size s0 r0, ev = EvCreateStream q0 size s0 r0).
  { intros ev [<- | [<- | []]]; eauto. }
  cbv zeta in Cases. cbn [fst snd] in Cases.
  destruct Cases as [(e0 & SR & _ & -> & _)
                    | [(os & t3 & wc & SR & R & F & C & FC & _ & -> & _)
                      | (mgr & session0 & SR & (oc & OC & OC') & _ & ->)]].
  - apply start_result_failed in SR. destruct SR as [-> | (opts & ->)].
    + exists (next_task_group w), (Raise e0). eexists.
      split; [cbn [app]; reflexivity |]. split; [exact N1 |].
      split; [intros x y HC; in_cases HC |].
      split; repeat intro;
        match goal with HC : In _ _ |- _ => in_cases HC end.
    + exists (next_task_group w), (Ret opts). eexists.
      split; [cbn [app]; reflexivity |]. split; [exact N1 |].
      split; [intros x y HC; in_cases HC |].
      exists (Raise e0). eexists. split; [reflexivity |].
      split; repeat intro;
        match goal with HC : In _ _ |- _ => in_cases HC end.
  - apply start_result_started in SR as (opts & coro & ->).
    destruct F as (rest & F).
    assert (NR : forall ev, In ev rest -> session_event ev).
    { intros ev Hev. apply (session_result_events R). rewrite F. right. exact Hev. }
    exists (next_task_group w), (Ret opts). eexists.
    split; [cbn [app]; reflexivity |]. split; [exact N1 |].
    split; [intros x y HC; in_cases HC; not_in_session R HC |].
    exists (Ret coro). eexists. split; [reflexivity |].
    split; [repeat intro;
            match goal with HC : In _ _ |- _ => in_cases HC; not_in_session R HC end |].
    exists w2. eexists. split; [rewrite F; cbn [app]; reflexivity |].
    split; [apply ST; cbn; auto |].
    intros tg' c HC. in_cases HC. apply NR in HC. exact HC.
  - apply start_result_started in SR as (opts & coro & ->).
    exists (next_task_group w), (Ret opts). eexists.
    split; [cbn [app]; reflexivity |]. split; [exact N1 |].
    split; [intros x y HC; in_cases HC |].
    exists (Ret coro). eexists. split; [reflexivity |].
    split; [repeat intro; match goal with HC : In _ _ |- _ => in_cases HC end |].
    exists w2. eexists. split; [rewrite <- OC, OC'; reflexivity |].
    split; [apply ST; cbn; auto |].
    intros tg' c HC. in_cases HC.
Qed.

(** * Further properties *)

(** ** The connector releases what it acquired *)

(** X1: however the scope of the connector is left, and whatever the
    collaborators and the block do, the four endpoints of its streams are
    closed when the [async with] is over. *)
Theorem connector_closes_streams_on_every_exit :
  forall (server : Server) (read_timeout_seconds : option timedelta)
         (raise_exceptions : bool) (body : ClientSession -> M unit) (w : World),
    match asynccontextmanager create_client_server_memory_streams w with
    | (Ret ((client_streams, server_streams), _), _, _) =>
        let '(_, w', _) :=
          exec (async_with
                  (asynccontextmanager
                     (create_connected_server_and_client_session
                        server read_timeout_seconds raise_exceptions))
                  (fun client_session => perform (body client_session))) w in
        all_closed w' client_streams server_streams
    | _ => False
    end.
Proof.
  intros server read_timeout_seconds raise_exceptions body w.
  destruct (connector_enter_cases server read_timeout_seconds raise_exceptions w)
    as (cs & ss & ex0 & w1 & t1 & w2 & t2 & o & w0 & tr0 & E & Hex & X & ST & Cases).
  rewrite E, exec_async_with, X. cbv zeta in Cases.
  destruct Cases as [(e & SR & -> & _ & AC)
                    | [(os & t3 & wc & SR & R & F & C & FC & -> & _ & AC)
                      | (mgr & session & SR & OC & -> & _)]].
  - destruct (exit_outcome _ _); exact AC.
  - destruct (exit_outcome _ _); exact AC.
  - destruct (body session w0) as [[ob wb] tb].
    destruct (@connector_exit_spec ex0 cs ss (next_task_group w) mgr (exc_of ob) wb Hex)
      as (answer & a_s & exc' & wc & wf & XX & _ & AC).
    rewrite XX. exact AC.
Qed.

(** ** The shape of an entry into the connector *)

(** X2: on every path on which the server task was started, the connector
    constructs the client session exactly once, right after the start, and
    gives it the client-side endpoint pair of the factory and the caller's
    read timeout. *)
Theorem session_bound_to_client_streams :
  forall (server : Server) (read_timeout_seconds : option timedelta)
         (raise_exceptions : bool) (w : World)
         (o : Outcome (ClientSession * Exit)) (w' : World) (tr : list Event)
         (tg : nat) (coro : Coroutine),
    asynccontextmanager
      (create_connected_server_and_client_session
         server read_timeout_seconds raise_exceptions) w
    = (o, w', tr) ->
    In (EvStartSoon tg coro) tr ->
    match asynccontextmanager create_client_server_memory_streams w with
    | (Ret ((client_streams, server_streams), _), _, _) =>
        let '(client_read, client_write) := client_streams in
        exists t0 oc rest,
          tr = t0 ++ [EvStartSoon tg coro;
                      EvClientSession client_read client_write
                        read_timeout_seconds oc] ++ rest
          /\ (forall rd wr t' o', ~ In (EvClientSession rd wr t' o') t0)
          /\ (forall rd wr t' o', ~ In (EvClientSession rd wr t' o') rest)
    | _ => False
    end.
Proof.
  intros server read_timeout_seconds raise_exceptions w o w' tr tg coro H HIn.
  destruct (connector_enter_cases server read_timeout_seconds raise_exceptions w)
    as ([client_read client_write] & ss & ex0 & w1 & t1 & w2 & t2 & o0 & w0 & tr0
        & E & Hex & X & ST & Cases).
  rewrite X in H. injection H as -> -> ->.
  rewrite E. destruct (factory_trace_creates E) as (q & s & r & q' & s' & r' & ->).
  cbv zeta in Cases. cbn [fst snd] in Cases.
  destruct Cases as [(e0 & SR & _ & -> & _)
                    | [(os & t3 & wc & SR & R & F & C & FC & _ & -> & _)
                      | (mgr & session0 & SR & OC & _ & ->)]].
  - exfalso. apply start_result_failed in SR. destruct SR as [-> | (opts & ->)];
      in_cases HIn.
  - apply start_result_started in SR as (opts & coro0 & ->).
    assert (Q : tg = next_task_group w /\ coro = coro0).
    { in_cases HIn; [now injection HIn | not_in_session R HIn]. }
    destruct Q as (-> & ->).
    destruct (session_result_constructor_first R) as (oc & rest & -> & NR).
    exists ([EvCreateStream q 1 s r; EvCreateStream q' 1 s' r']
              ++ [EvTaskGroupEnter (next_task_group w);
                  EvCreateInitializationOptions server (Ret opts);
                  EvServerRun server (fst ss) (snd ss) opts raise_exceptions
                    (Ret coro0)]),
      oc,
      (rest ++ [EvCancel (next_task_group w);
                EvTaskGroupExit (next_task_group w) (exc_of os)
                  (fst (TaskGroup_aexit (next_task_group w) (exc_of os) wc))]
            ++ releases (client_read, client_write) ss).
    split; [trace_eq |].
    split; intros rd wr t' o' HC; in_cases HC. now apply NR in HC.
  - apply start_result_started in SR as (opts & coro0 & ->).
    assert (Q : tg = next_task_group w /\ coro = coro0).
    { in_cases HIn. now injection HIn. }
    destruct Q as (-> & ->).
    exists ([EvCreateStream q 1 s r; EvCreateStream q' 1 s' r']
              ++ [EvTaskGroupEnter (next_task_group w);
                  EvCreateInitializationOptions server (Ret opts);
                  EvServerRun server (fst ss) (snd ss) opts raise_exceptions
                    (Ret coro0)]),
      (Ret mgr),
      [EvSessionEnter mgr (Ret session0); EvInitialize session0 (Ret tt)].
    split; [trace_eq |].
    split; intros rd wr t' o' HC; in_cases HC.
Qed.

(** X3: when entering the connector hands a session over, all that has been
    done is: the two streams created, the task group entered, the server
    asked for its initialization options, its [run] called on the server-side
    pair, the coroutine made a task, the session constructed on the client
    pair, entered and initialized.  Nothing has been cancelled, exited or
    closed. *)
Theorem nothing_released_before_hand_over :
  forall (server : Server) (read_timeout_seconds : option timedelta)
         (raise_exceptions : bool) (w : World)
         (session : ClientSession) (ex : Exit) (w' : World) (tr : list Event),
    asynccontextmanager
      (create_connected_server_and_client_session
         server read_timeout_seconds raise_exceptions) w
    = (Ret (session, ex), w', tr) ->
    match asynccontextmanager create_client_server_memory_streams w with
    | (Ret ((client_streams, server_streams), _), _, t1) =>
        exists tg opts coro mgr,
          tr = t1 ++ [EvTaskGroupEnter tg;
                      EvCreateInitializationOptions server (Ret opts);
                      EvServerRun server (fst server_streams) (snd server_streams)
                        opts raise_exceptions (Ret coro);
                      EvStartSoon tg coro;
                      EvClientSession (fst client_streams) (snd client_streams)
                        read_timeout_seconds (Ret mgr);
                      EvSessionEnter mgr (Ret session);
                      EvInitialize session (Ret tt)]
          /\ exists q s r q' s' r',
              t1 = [EvCreateStream q 1 s r; EvCreateStream q' 1 s' r']
    | _ => False
    end.
Proof.
  intros server read_timeout_seconds raise_exceptions w session ex w' tr H.
  destruct (connector_enter_cases server read_timeout_seconds raise_exceptions w)
    as (cs & ss & ex0 & w1 & t1 & w2 & t2 & o & w0 & tr0 & E & Hex & X & ST & Cases).
  rewrite X in H. injection H as -> -> ->. rewrite E. cbv zeta in Cases.
  destruct Cases as [(e & SR & Q & _)
                    | [(os & t3 & wc & SR & R & F & C & FC & Q & _)
                      | (mgr & session0 & SR & OC & Q & ->)]].
  - destruct (exit_outcome _ _); discriminate.
  - destruct (exit_outcome _ _); discriminate.
  - injection Q as -> _.
    apply start_result_started in SR as (opts & coro & ->).
    exists (next_task_group w), opts, coro, mgr.
    split; [reflexivity | exact (factory_trace_creates E)].
Qed.

(** X4: if the session cannot be constructed, or its [__aenter__] raises,
    entering the connector raises without calling [initialize] or the
    session's [__aexit__]; the exception raised is that failure whenever the
    task group's [__aexit__] lets it through. *)
Theorem session_setup_failure_skips_handshake :
  forall (server : Server) (read_timeout_seconds : option timedelta)
         (raise_exceptions : bool) (w : World)
         (o : Outcome (ClientSession * Exit)) (w' : World) (tr : list Event)
         (e : PyExc),
    asynccontextmanager
      (create_connected_server_and_client_session
         server read_timeout_seconds raise_exceptions) w
    = (o, w', tr) ->
    (exists rd wr t', In (EvClientSession rd wr t' (Raise e)) tr)
    \/ (exists mgr, In (EvSessionEnter mgr (Raise e)) tr) ->
    (exists e', o = Raise e')
    /\ (forall s a, ~ In (EvInitialize s a) tr)
    /\ (forall m x a, ~ In (EvSessionExit m x a) tr)
    /\ ((forall tg w0, lets_through e (fst (TaskGroup_aexit tg (Some e) w0))) ->
        o = Raise e).
Proof.
  intros server read_timeout_seconds raise_exceptions w o w' tr e H HF.
  destruct (connector_enter_cases server read_timeout_seconds raise_exceptions w)
    as (cs & ss & ex0 & w1 & t1 & w2 & t2 & o0 & w0 & tr0 & E & Hex & X & ST & Cases).
  rewrite X in H. injection H as -> -> ->.
  destruct (factory_trace_creates E) as (q & s & r & q' & s' & r' & ->).
  cbv zeta in Cases.
  destruct Cases as [(e0 & SR & _ & -> & _)
                    | [(os & t3 & wc & SR & R & F & C & FC & -> & -> & _)
                      | (mgr & session0 & SR & OC & _ & ->)]].
  - exfalso. apply start_result_failed in SR.
    destruct SR as [-> | (opts & ->)];
      destruct HF as [(rd & wr & t' & HIn) | (mgr & HIn)]; in_cases HIn.
  - apply start_result_started in SR as (opts & coro & ->).
    assert (HF3 : (exists rd wr t', In (EvClientSession rd wr t' (Raise e)) t3)
                  \/ (exists mgr, In (EvSessionEnter mgr (Raise e)) t3)).
    { destruct HF as [(rd & wr & t' & HIn) | (mgr & HIn)];
        [left; exists rd, wr, t' | right; exists mgr]; in_cases HIn; exact HIn. }
    destruct (session_result_setup_failure_inv e R HF3) as (-> & NI & NX).
    split; [apply entering_raises |].
    split; [| split].
    + intros s0 a HIn. in_cases HIn. now apply NI in HIn.
    + intros m x a HIn. in_cases HIn. now apply NX in HIn.
    + intros PT. cbn [exc_of].
      destruct (PT (next_task_group w) wc) as [Q | Q]; rewrite Q; reflexivity.
  - exfalso. apply start_result_started in SR as (opts & coro & ->).
    destruct HF as [(rd & wr & t' & HIn) | (mgr' & HIn)]; in_cases HIn.
Qed.

(** X5: if the handshake fails and the session's [__aexit__] suppresses the
    failure, and the task group then exits normally, the generator of the
    connector ends without having yielded: entering raises
    [RuntimeError("generator didn't yield")]. *)
Theorem suppressed_handshake_failure_is_runtime_error :
  forall (server : Server) (read_timeout_seconds : option timedelta)
         (raise_exceptions : bool) (w : World)
         (o : Outcome (ClientSession * Exit)) (w' : World) (tr : list Event)
         (mgr : ClientSession) (e : PyExc) (tg : nat) (exc : option PyExc) (b : bool),
    asynccontextmanager
      (create_connected_server_and_client_session
         server read_timeout_seconds raise_exceptions) w
    = (o, w', tr) ->
    In (EvSessionExit mgr (Some e) (Ret true)) tr ->
    In (EvTaskGroupExit tg exc (Ret b)) tr ->
    o = Raise (RuntimeError "generator didn't yield")
    /\ exc = None.
Proof.
  intros server read_timeout_seconds raise_exceptions w o w' tr mgr e tg exc b H HS HT.
  destruct (connector_enter_cases server read_timeout_seconds raise_exceptions w)
    as (cs & ss & ex0 & w1 & t1 & w2 & t2 & o0 & w0 & tr0 & E & Hex & X & ST & Cases).
  rewrite X in H. injection H as -> -> ->.
  destruct (factory_trace_creates E) as (q & s & r & q' & s' & r' & ->).
  cbv zeta in Cases.
  destruct Cases as [(e0 & SR & _ & -> & _)
                    | [(os & t3 & wc & SR & R & F & C & FC & -> & -> & _)
                      | (mgr0 & session0 & SR & OC & _ & ->)]].
  - exfalso. apply start_result_failed in SR.
    destruct SR as [-> | (opts & ->)]; in_cases HS.
  - apply start_result_started in SR as (opts & coro & ->).
    assert (HS3 : In (EvSessionExit mgr (Some e) (Ret true)) t3)
      by (in_cases HS; exact HS).
    assert (Q : os = Ret (Finished tt)).
    { clear F HT. destruct R as [e0 | mgr0 e0 | mgr0 s0 e0 wx a | mgr0 s0]; cbn in HS3;
        repeat (destruct HS3 as [HS3 | HS3]; try discriminate); try contradiction.
      injection HS3 as -> -> Q. subst a. rewrite Q. reflexivity. }
    subst os. cbn [exc_of] in HT |- *.
    in_cases HT; [not_in_session R HT |].
    injection HT as _ <- Q. rewrite Q. split; reflexivity.
  - exfalso. apply start_result_started in SR as (opts & coro & ->).
    in_cases HS.
Qed.

(** X12: if the callable handed to [start_soon] raises, in
    [server.create_initialization_options()] or in the call of [server.run],
    no task is started and the [try] is never entered: no session is
    constructed and the connector does not call [cancel]; the exception goes
    to the [__aexit__] of the task group, the four endpoints are closed and
    entering the connector raises, that exception whenever the task group's
    [__aexit__] lets it through. *)
Theorem start_failure_skips_session_and_cancel :
  forall (server : Server) (read_timeout_seconds : option timedelta)
         (raise_exceptions : bool) (w : World)
         (o : Outcome (ClientSession * Exit)) (w' : World) (tr : list Event)
         (e : PyExc),
    asynccontextmanager
      (create_connected_server_and_client_session
         server read_timeout_seconds raise_exceptions) w
    = (o, w', tr) ->
    In (EvCreateInitializationOptions server (Raise e)) tr
    \/ (exists rd wr opts rx, In (EvServerRun server rd wr opts rx (Raise e)) tr) ->
    match asynccontextmanager create_client_server_memory_streams w with
    | (Ret ((client_streams, server_streams), _), _, t1) =>
        exists tg called wt,
          let a := fst (TaskGroup_aexit tg (Some e) wt) in
          tr = t1 ++ [EvTaskGroupEnter tg] ++ called
                  ++ [EvTaskGroupExit tg (Some e) a]
                  ++ releases client_streams server_streams
          /\ (called = [EvCreateInitializationOptions server (Raise e)]
              \/ exists opts,
                  called = [EvCreateInitializationOptions server (Ret opts);
                            EvServerRun server (fst server_streams)
                              (snd server_streams) opts raise_exceptions (Raise e)])
          /\ (forall tg' c, ~ In (EvStartSoon tg' c) tr)
          /\ (forall rd wr t' o', ~ In (EvClientSession rd wr t' o') tr)
          /\ (forall tg', ~ In (EvCancel tg') tr)
          /\ all_closed w' client_streams server_streams
          /\ (exists e', o = Raise e')
          /\ (lets_through e a -> o = Raise e)
    | _ => False
    end.
Proof.
  intros server read_timeout_seconds raise_exceptions w o w' tr e H HF.
  destruct (connector_enter_cases server read_timeout_seconds raise_exceptions w)
    as (cs & ss & ex0 & w1 & t1 & w2 & t2 & o0 & w0 & tr0 & E & Hex & X & ST & Cases).
  rewrite X in H. injection H as -> -> ->. rewrite E.
  destruct (factory_trace_creates E) as (q & s & r & q' & s' & r' & ->).
  cbv zeta in Cases.
  destruct Cases as [(e0 & SR & -> & -> & AC)
                    | [(os & t3 & wc & SR & R & F & C & FC & _ & -> & _)
                      | (mgr & session0 & SR & OC & _ & ->)]].
  - assert (Q : e0 = e).
    { apply start_result_failed in SR.
      destruct SR as [-> | (opts & ->)];
        destruct HF as [HIn | (rd & wr & opts' & rx & HIn)]; in_cases HIn;
        now injection HIn. }
    subst e0.
    exists (next_task_group w), t2, w2. cbv zeta.
    split; [reflexivity |].
    split; [apply start_result_failed in SR; exact SR |].
    apply start_result_failed in SR.
    split; [| split; [| split; [| split; [exact AC | split]]]].
    + intros tg' c HC. destruct SR as [-> | (opts & ->)]; in_cases HC.
    + intros rd wr t' o' HC. destruct SR as [-> | (opts & ->)]; in_cases HC.
    + intros tg' HC. destruct SR as [-> | (opts & ->)]; in_cases HC.
    + apply entering_raises.
    + intros [Q | Q]; rewrite Q; reflexivity.
  - exfalso. apply start_result_started in SR as (opts & coro & ->).
    destruct HF as [HIn | (rd & wr & opts' & rx & HIn)];
      in_cases HIn; not_in_session R HIn.
  - exfalso. apply start_result_started in SR as (opts & coro & ->).
    destruct HF as [HIn | (rd & wr & opts' & rx & HIn)]; in_cases HIn.
Qed.

(** ** How the connector's [async with] ends *)

(** X6: once the session has been handed over, the [async with] of the
    connector ends the way its block ended: a block that returns gives a
    normal end when the session and the task group exit normally, and an
    exception of the block is the exception raised when the session's and the
    task group's [__aexit__] let it through. *)
Theorem block_outcome_propagates :
  forall (server : Server) (read_timeout_seconds : option timedelta)
         (raise_exceptions : bool) (body : ClientSession -> M unit) (w : World)
         (session : ClientSession) (ex : Exit) (w3 : World) (tr : list Event)
         (ob : Outcome unit) (wb : World) (tb : list Event),
    asynccontextmanager
      (create_connected_server_and_client_session
         server read_timeout_seconds raise_exceptions) w
    = (Ret (session, ex), w3, tr) ->
    body session w3 = (ob, wb, tb) ->
    match ob with
    | Ret _ =>
        (forall mgr w0, exists b, fst (ClientSession_aexit mgr None w0) = Ret b)
        /\ (forall tg w0, exists b, fst (TaskGroup_aexit tg None w0) = Ret b)
    | Raise e =>
        (forall mgr w0, lets_through e (fst (ClientSession_aexit mgr (Some e) w0)))
        /\ (forall tg w0, lets_through e (fst (TaskGroup_aexit tg (Some e) w0)))
    end ->
    fst (fst (exec (async_with
                      (asynccontextmanager
                         (create_connected_server_and_client_session
                            server read_timeout_seconds raise_exceptions))
                      (fun client_session => perform (body client_session))) w))
    = ob.
Proof.
  intros server read_timeout_seconds raise_exceptions body w session ex w3 tr
         ob wb tb H HB HP.
  destruct (connector_enter_cases server read_timeout_seconds raise_exceptions w)
    as (cs & ss & ex0 & w1 & t1 & w2 & t2 & o & w0 & tr0 & E & Hex & X & ST & Cases).
  rewrite exec_async_with, H, HB.
  rewrite X in H. injection H as -> -> ->. cbv zeta in Cases.
  destruct Cases as [(e & SR & Q & _)
                    | [(os & t3 & wc & SR & R & F & C & FC & Q & _)
                      | (mgr & session0 & SR & OC & Q & _)]].
  - destruct (exit_outcome _ _); discriminate.
  - destruct (exit_outcome _ _); discriminate.
  - injection Q as _ ->.
    destruct (@connector_exit_outcome ex0 cs ss (next_task_group w) mgr (exc_of ob) wb Hex)
      as (wc & w' & t' & XX).
    cbv zeta in XX. rewrite XX.
    destruct ob as [[] | eb]; cbn [exc_of exit_outcome fst]; destruct HP as (PS & PT).
    + destruct (PS mgr wb) as (b1 & Q1). rewrite Q1. cbn [exit_outcome exc_of].
      destruct (PT (next_task_group w) wc) as (b2 & Q2). rewrite Q2. reflexivity.
    + destruct (PS mgr wb) as [Q1 | Q1]; rewrite Q1; cbn [exit_outcome exc_of];
        destruct (PT (next_task_group w) wc) as [Q2 | Q2]; rewrite Q2;
        cbn [exit_outcome];
        destruct (PyExc_eq_dec eb eb); try contradiction; reflexivity.
Qed.

(** X11: leaving the connector after the session was handed over does, in
    this order and nothing else: the [__aexit__] of the session that was
    entered, told the exception of the block (none if it returned); the
    cancel of the task group; the [__aexit__] of the task group; the four
    closes. *)
Theorem scope_is_left_in_order :
  forall (server : Server) (read_timeout_seconds : option timedelta)
         (raise_exceptions : bool) (w : World)
         (session : ClientSession) (ex : Exit) (w3 : World) (tr : list Event),
    asynccontextmanager
      (create_connected_server_and_client_session
         server read_timeout_seconds raise_exceptions) w
    = (Ret (session, ex), w3, tr) ->
    match asynccontextmanager create_client_server_memory_streams w with
    | (Ret ((client_streams, server_streams), _), _, _) =>
        exists tg mgr,
          In (EvTaskGroupEnter tg) tr
          /\ In (EvSessionEnter mgr (Ret session)) tr
          /\ forall (exc : option PyExc) (wb : World),
              exists a_s exc' a,
                snd (ex exc wb)
                = [EvSessionExit mgr exc a_s; EvCancel tg;
                   EvTaskGroupExit tg exc' a]
                    ++ releases client_streams server_streams
    | _ => False
    end.
Proof.
  intros server read_timeout_seconds raise_exceptions w session ex w3 tr H.
  destruct (connector_enter_cases server read_timeout_seconds raise_exceptions w)
    as (cs & ss & ex0 & w1 & t1 & w2 & t2 & o & w0 & tr0 & E & Hex & X & ST & Cases).
  rewrite X in H. injection H as -> -> ->. rewrite E. cbv zeta in Cases.
  destruct Cases as [(e & SR & Q & _)
                    | [(os & t3 & wc & SR & R & F & C & FC & Q & _)
                      | (mgr & session0 & SR & OC & Q & ->)]].
  - destruct (exit_outcome _ _); discriminate.
  - destruct (exit_outcome _ _); discriminate.
  - injection Q as -> ->.
    exists (next_task_group w), mgr.
    split; [apply in_or_app; right; left; reflexivity |].
    split; [apply in_or_app; right; apply in_or_app; right;
            apply in_or_app; right; right; left; reflexivity |].
    intros exc wb.
    destruct (@connector_exit_spec ex0 cs ss (next_task_group w) mgr exc wb Hex)
      as (answer & a_s & exc' & wc & w2' & XX & _ & _).
    exists a_s, exc'. eexists. rewrite XX. reflexivity.
Qed.

Set Implicit Arguments.

(** ** The streams the factory hands over *)

(** X7: the endpoints the factory yields are open, and the two streams are
    empty, with nobody parked and exactly one open endpoint at each end. *)
Theorem fresh_streams_open_and_empty :
  forall w : World,
    match asynccontextmanager create_client_server_memory_streams w with
    | (Ret ((client_streams, server_streams), _), w', _) =>
        receive_closed w' (fst client_streams) = false
        /\ send_closed w' (snd client_streams) = false
        /\ receive_closed w' (fst server_streams) = false
        /\ send_closed w' (snd server_streams) = false
        /\ forall s, In s [snd client_streams; snd server_streams] ->
             let st := states w' (send_stream_state w' s) in
             buffer st = [] /\ waiting_senders st = [] /\ waiting_receivers st = 0
             /\ open_send_channels st = 1%Z /\ open_receive_channels st = 1%Z
    | _ => False
    end.
Proof.
  intros w. cbn -[In]. unfold receive_closed, send_closed. store_simpl.
  repeat (split; [reflexivity |]).
  intros s [<- | [<- | []]]; unfold send_stream_state; store_simpl; repeat split.
Qed.

(** X8: entering the factory changes no stream state and no endpoint that
    existed before, creates no task group and leaves the collaborators'
    state alone; it allocates exactly two states, two send endpoints and two
    receive endpoints. *)
Theorem factory_entry_touches_nothing_else :
  forall w : World,
    let '(_, w', _) := asynccontextmanager create_client_server_memory_streams w in
    (forall q, q < next_state w -> states w' q = states w q)
    /\ (forall i, i < next_send_stream w -> send_streams w' i = send_streams w i)
    /\ (forall i, i < next_receive_stream w ->
                  receive_streams w' i = receive_streams w i)
    /\ next_state w' = 2 + next_state w
    /\ next_send_stream w' = 2 + next_send_stream w
    /\ next_receive_stream w' = 2 + next_receive_stream w
    /\ task_groups w' = task_groups w
    /\ next_task_group w' = next_task_group w
    /\ env w' = env w.
Proof.
  intros w. cbn.
  repeat split; intros k Hk; rewrite !store_set_ne by lia; reflexivity.
Qed.

Lemma send_on_closed (s : MemoryObjectSendStream) (item : Item) (w : World) :
  send_closed w s = true -> send s item w = (Raise ClosedResourceError, w, []).
Proof.
  unfold send_closed, send, send_nowait. intros ->. reflexivity.
Qed.

Lemma receive_on_closed (r : MemoryObjectReceiveStream) (w : World) :
  receive_closed w r = true -> receive r w = (Raise ClosedResourceError, w, []).
Proof.
  unfold receive_closed, receive, receive_nowait. intros ->. reflexivity.
Qed.

(** X9: once the scope of the factory has been left, in whatever way, every
    send and every receive on its endpoints raises [ClosedResourceError] and
    changes nothing. *)
Theorem streams_unusable_after_scope :
  forall (body : MessageStream * MessageStream -> M unit) (w : World) (item : Item),
    match asynccontextmanager create_client_server_memory_streams w with
    | (Ret ((client_streams, server_streams), _), _, _) =>
        let '(_, w', _) :=
          exec (async_with (asynccontextmanager create_client_server_memory_streams)
                  (fun streams => perform (body streams))) w in
        send (snd client_streams) item w' = (Raise ClosedResourceError, w', [])
        /\ send (snd server_streams) item w' = (Raise ClosedResourceError, w', [])
        /\ receive (fst client_streams) w' = (Raise ClosedResourceError, w', [])
        /\ receive (fst server_streams) w' = (Raise ClosedResourceError, w', [])
    | _ => False
    end.
Proof.
  intros body w item. unfold exec. rewrite drive_async_with.
  destruct (factory_spec w)
    as (client_streams & server_streams & ex & w1 & t1 & E & _ & _ & _ & _ & Hex).
  rewrite E. unfold perform. rewrite drive_Await.
  destruct (body (client_streams, server_streams) w1) as [[[[] | e] wb] tb];
    cbn [drive traced after_exit app];
    [destruct (Hex None wb) as (w' & E' & (C1 & C2 & C3 & C4) & _)
    | destruct (Hex (Some e) wb) as (w' & E' & (C1 & C2 & C3 & C4) & _)];
    rewrite E'; cbn [traced];
    (split; [now apply send_on_closed |]);
    (split; [now apply send_on_closed |]);
    (split; now apply receive_on_closed).
Qed.

(** ** Backpressure *)

(** The buffer of a stream holds at most [n] items, its capacity. *)
Definition within_capacity (n : nat) (st : MemoryObjectStreamState) : Prop :=
  max_buffer_size st = n /\ List.length (buffer st) <= n.

Lemma send_within_capacity (s : MemoryObjectSendStream) (item : Item) (w : World)
    (n : nat) :
  let q := send_stream_state w s in
  within_capacity n (states w q) ->
  let '(_, w1, _) := send s item w in
  send_streams w1 = send_streams w
  /\ receive_streams w1 = receive_streams w
  /\ within_capacity n (states w1 q).
Proof.
  intros q (M0 & L). unfold send, send_nowait. fold (send_stream_state w s). fold q.
  unfold within_capacity.
  destruct (stream_closed _); [auto |].
  destruct (_ =? 0)%Z; [auto |].
  destruct (waiting_receivers (states w q)) as [| k].
  - destruct (Nat.ltb_spec (List.length (buffer (states w q)))
                (max_buffer_size (states w q))) as [L' | L'];
      cbn; rewrite store_set_eq; cbn; repeat split; auto.
    rewrite length_app. cbn. lia.
  - cbn; rewrite store_set_eq; cbn; repeat split; auto.
Qed.

Lemma receive_within_capacity (r : MemoryObjectReceiveStream) (w : World) (n : nat) :
  let q := receive_stream_state w r in
  within_capacity n (states w q) ->
  let '(_, w1, _) := receive r w in
  send_streams w1 = send_streams w
  /\ receive_streams w1 = receive_streams w
  /\ within_capacity n (states w1 q).
Proof.
  intros q (M0 & L). unfold receive, receive_nowait.
  fold (receive_stream_state w r). fold q. unfold within_capacity.
  destruct (stream_closed _); [auto |].
  destruct (waiting_senders (states w q)) as [| parked rest];
    destruct (buffer (states w q)) as [| item b] eqn:B; cbn in L |- *;
    try (destruct (_ =? 0)%Z); cbn; rewrite ?store_set_eq; cbn;
    rewrite ?B; cbn; repeat split; auto; try lia.
  rewrite length_app. cbn. lia.
Qed.

Lemma run_ops_within_capacity (s : MemoryObjectSendStream)
    (r : MemoryObjectReceiveStream) (q n : nat) (ops : list StreamOp) :
  forall w : World,
    send_stream_state w s = q ->
    receive_stream_state w r = q ->
    within_capacity n (states w q) ->
    within_capacity n (states (fst (run_ops s r ops w)) q).
Proof.
  induction ops as [| [item |] ops IH]; intros w Hs Hr Hq; [exact Hq | |]; cbn.
  - pose proof (send_within_capacity s item w (n := n)) as F.
    rewrite Hs in F. specialize (F Hq).
    destruct (send s item w) as [[o w1] t1]. destruct F as (F1 & F2 & F3).
    specialize (IH w1). unfold send_stream_state, receive_stream_state in *.
    rewrite F1, F2 in IH. specialize (IH Hs Hr F3).
    destruct (run_ops s r ops w1). exact IH.
  - pose proof (receive_within_capacity r w (n := n)) as F.
    rewrite Hr in F. specialize (F Hq).
    destruct (receive r w) as [[o w1] t1]. destruct F as (F1 & F2 & F3).
    specialize (IH w1). unfold send_stream_state, receive_stream_state in *.
    rewrite F1, F2 in IH. specialize (IH Hs Hr F3).
    destruct (run_ops s r ops w1). exact IH.
Qed.

(** On a fresh stream of capacity one, a first write is buffered and a
    second write finds the buffer full. *)
Lemma send_twice (s : MemoryObjectSendStream) (item1 item2 : Item) (w : World) :
  let st := states w (send_stream_state w s) in
  send_closed w s = false ->
  open_receive_channels st <> 0%Z ->
  waiting_receivers st = 0 ->
  buffer st = [] ->
  max_buffer_size st = 1 ->
  let '(o1, w1, _) := send s item1 w in
  o1 = Ret (Done tt)
  /\ fst (fst (send s item2 w1)) = Ret Suspended
  /\ fst (fst (send_nowait s item2 w1)) = Raise WouldBlock.
Proof.
  unfold send_closed, send_stream_state. intros C OR W B M0.
  apply Z.eqb_neq in OR.
  unfold send at 1, send_nowait at 1. rewrite C, OR, W, B, M0. cbn [List.length Nat.ltb Nat.leb].
  split; [reflexivity |].
  assert (Q : fst (fst (send_nowait s item2
                          (update_state (stream_state (send_streams w (send_ref s)))
                             (with_buffer ([] ++ [item1])) w)))
              = Raise WouldBlock).
  { unfold send_nowait. cbn. rewrite store_set_eq. cbn. rewrite C, OR, W, M0.
    reflexivity. }
  split; [| exact Q].
  unfold send. destruct (send_nowait s item2 _) as [[o w2] t2]. cbn in Q. subst o.
  reflexivity.
Qed.

(** X10: on either direction of the link, whatever writes and reads are
    started, the stream never buffers more than the one item the factory
    allows; and on the fresh streams a second write with no read in between
    suspends the writer. *)
Theorem streams_buffer_at_most_one_item :
  forall (w : World) (ops : list StreamOp),
    match asynccontextmanager create_client_server_memory_streams w with
    | (Ret ((client_streams, server_streams), _), w', _) =>
        (let q := send_stream_state w' (snd client_streams) in
         List.length
           (buffer (states (fst (run_ops (snd client_streams) (fst server_streams)
                                   ops w')) q)) <= 1)
        /\ (let q := send_stream_state w' (snd server_streams) in
            List.length
              (buffer (states (fst (run_ops (snd server_streams) (fst client_streams)
                                      ops w')) q)) <= 1)
        /\ forall s (item1 item2 : Item),
            In s [snd client_streams; snd server_streams] ->
            let '(o1, w1, _) := send s item1 w' in
            o1 = Ret (Done tt)
            /\ fst (fst (send s item2 w1)) = Ret Suspended
            /\ fst (fst (send_nowait s item2 w1)) = Raise WouldBlock
    | _ => False
    end.
Proof.
  intros w ops. cbn -[run_ops In send send_nowait].
  split; [| split].
  - cbv zeta. apply (@run_ops_within_capacity _ _ _ 1);
      unfold send_stream_state, receive_stream_state, within_capacity;
      store_simpl; auto.
  - cbv zeta. apply (@run_ops_within_capacity _ _ _ 1);
      unfold send_stream_state, receive_stream_state, within_capacity;
      store_simpl; auto.
  - intros s item1 item2 [<- | [<- | []]]; apply send_twice;
      unfold send_closed, send_stream_state; store_simpl;
      reflexivity || discriminate.
Qed.


End Memory.

Arguments OpReceive {JSONRPCMessage}.
Arguments releases {JSONRPCMessage timedelta InitializationOptions Server ClientSession Coroutine}.
Arguments EvCreateStream {JSONRPCMessage timedelta InitializationOptions Server ClientSession Coroutine}.
Arguments EvCloseSend {JSONRPCMessage timedelta InitializationOptions Server ClientSession Coroutine}.
Arguments EvCloseReceive {JSONRPCMessage timedelta InitializationOptions Server ClientSession Coroutine}.
Arguments EvTaskGroupEnter {JSONRPCMessage timedelta InitializationOptions Server ClientSession Coroutine}.
Arguments EvStartSoon {JSONRPCMessage timedelta InitializationOptions Server ClientSession Coroutine}.
Arguments EvCancel {JSONRPCMessage timedelta InitializationOptions Server ClientSession Coroutine}.
Arguments EvTaskGroupExit {JSONRPCMessage timedelta InitializationOptions Server ClientSession Coroutine}.
Arguments EvClientSession {JSONRPCMessage timedelta InitializationOptions Server ClientSession Coroutine}.
Arguments EvSessionEnter {JSONRPCMessage timedelta InitializationOptions Server ClientSession Coroutine}.
Arguments EvInitialize {JSONRPCMessage timedelta InitializationOptions Server ClientSession Coroutine}.
Arguments EvSessionExit {JSONRPCMessage timedelta InitializationOptions Server ClientSession Coroutine}.
Arguments EvCreateInitializationOptions {JSONRPCMessage timedelta InitializationOptions Server ClientSession Coroutine}.
Arguments EvServerRun {JSONRPCMessage timedelta InitializationOptions Server ClientSession Coroutine}.

(** * A scripted instance

    Messages, timeouts, initialization options, servers, sessions and
    coroutines are numbers.  The collaborators' state is the outcome scripted
    for the handshake; the session and the task group let exceptions
    through. *)
Module Sample.

Definition Env : Type := Outcome unit.
Definition SampleWorld : Type := World nat nat Env.
Definition SampleEvent : Type := Event nat nat nat nat nat nat.

Definition TaskGroup_aexit (tg : nat) (exc : option PyExc) (w : SampleWorld)
    : Outcome bool * SampleWorld := (Ret false, w).

Definition ClientSession_new (read_stream : MemoryObjectReceiveStream)
    (write_stream : MemoryObjectSendStream) (read_timeout_seconds : option nat)
    (w : SampleWorld) : Outcome nat * SampleWorld := (Ret 5, w).

Definition ClientSession_aenter (mgr : nat) (w : SampleWorld)
    : Outcome nat * SampleWorld := (Ret mgr, w).

Definition ClientSession_initialize (session : nat) (w : SampleWorld)
    : Outcome unit * SampleWorld := (env w, w).

Definition ClientSession_aexit (mgr : nat) (exc : option PyExc) (w : SampleWorld)
    : Outcome bool * SampleWorld := (Ret false, w).

Definition Server_create_initialization_options (server : nat) (w : SampleWorld)
    : Outcome nat * SampleWorld := (Ret (server + 100), w).

Definition Server_run (server : nat) (read_stream : MemoryObjectReceiveStream)
    (write_stream : MemoryObjectSendStream) (opts : nat) (raise_exceptions : bool)
    (w : SampleWorld) : Outcome nat * SampleWorld := (Ret (server + 200), w).

(** The factory and the connector (for server 3, no read timeout,
    [raise_exceptions=False]) over these collaborators. *)
Definition streams
    : ContextManager nat nat nat nat nat nat Env (MessageStream * MessageStream) :=
  asynccontextmanager (create_client_server_memory_streams nat nat nat nat nat nat Env).

Definition connector : ContextManager nat nat nat nat nat nat Env nat :=
  asynccontextmanager
    (@create_connected_server_and_client_session nat nat nat nat nat nat Env
       TaskGroup_aexit ClientSession_new ClientSession_aenter
       ClientSession_initialize ClientSession_aexit
       Server_create_initialization_options Server_run 3 None false).

(** The [__aexit__] a run of [__aenter__] gave back, if it gave one. *)
Definition exit_of {X : Type}
    (res : Outcome (X * Exit nat nat nat nat nat nat Env) * SampleWorld
           * list SampleEvent)
    : Exit nat nat nat nat nat nat Env :=
  match fst (fst res) with
  | Ret (_, ex) => ex
  | Raise _ => fun _ w => (Ret false, w, [])
  end.

(** Worlds in which the handshake will succeed, and will time out. *)
Definition ready : SampleWorld := initial_world nat nat (Ret tt).
Definition stalled : SampleWorld := initial_world nat nat (Raise TimeoutError).

(** The endpoints of the first and of the second invocation of the factory. *)
Definition client1 : MessageStream := (ReceiveStream 0, SendStream 1).
Definition server1 : MessageStream := (ReceiveStream 1, SendStream 0).
Definition client2 : MessageStream := (ReceiveStream 2, SendStream 3).
Definition server2 : MessageStream := (ReceiveStream 3, SendStream 2).

(** The world after the factory was entered once, and twice. *)
Definition once : SampleWorld := snd (fst (streams ready)).
Definition twice : SampleWorld := snd (fst (streams once)).

(** A session whose constructor raises, and a session whose [__aexit__]
    suppresses whatever it is told. *)
Definition ClientSession_new_failing (read_stream : MemoryObjectReceiveStream)
    (write_stream : MemoryObjectSendStream) (read_timeout_seconds : option nat)
    (w : SampleWorld) : Outcome nat * SampleWorld := (Raise (OtherException 7), w).

Definition ClientSession_aexit_suppressing (mgr : nat) (exc : option PyExc)
    (w : SampleWorld) : Outcome bool * SampleWorld := (Ret true, w).

(** A server that cannot give its initialization options. *)
Definition Server_create_initialization_options_failing (server : nat)
    (w : SampleWorld) : Outcome nat * SampleWorld := (Raise (OtherException 9), w).

(** The [__aexit__] of a task group none of whose tasks raised, as anyio 4
    has it: an exception of the block that is no cancellation is raised
    again inside an exception group; a cancellation is raised again as it
    is. *)
Definition TaskGroup_aexit_grouping (tg : nat) (exc : option PyExc) (w : SampleWorld)
    : Outcome bool * SampleWorld :=
  match exc with
  | None => (Ret false, w)
  | Some CancelledError => (Raise CancelledError, w)
  | Some e => (Raise (ExceptionGroup "unhandled errors in a TaskGroup" [e]), w)
  end.

Definition connector_without_session : ContextManager nat nat nat nat nat nat Env nat :=
  asynccontextmanager
    (@create_connected_server_and_client_session nat nat nat nat nat nat Env
       TaskGroup_aexit ClientSession_new_failing ClientSession_aenter
       ClientSession_initialize ClientSession_aexit
       Server_create_initialization_options Server_run 3 None false).

Definition connector_suppressing : ContextManager nat nat nat nat nat nat Env nat :=
  asynccontextmanager
    (@create_connected_server_and_client_session nat nat nat nat nat nat Env
       TaskGroup_aexit ClientSession_new ClientSession_aenter
       ClientSession_initialize ClientSession_aexit_suppressing
       Server_create_initialization_options Server_run 3 None false).

Definition connector_without_task : ContextManager nat nat nat nat nat nat Env nat :=
  asynccontextmanager
    (@create_connected_server_and_client_session nat nat nat nat nat nat Env
       TaskGroup_aexit ClientSession_new ClientSession_aenter
       ClientSession_initialize ClientSession_aexit
       Server_create_initialization_options_failing Server_run 3 None false).

Definition connector_grouping : ContextManager nat nat nat nat nat nat Env nat :=
  asynccontextmanager
    (@create_connected_server_and_client_session nat nat nat nat nat nat Env
       TaskGroup_aexit_grouping ClientSession_new ClientSession_aenter
       ClientSession_initialize ClientSession_aexit
       Server_create_initialization_options Server_run 3 None false).

(** A block that raises. *)
Definition failing_block (session : nat) : M nat nat nat nat nat nat Env unit :=
  fun w => (Raise (OtherException 1), w, []).

(** Entering the connector when the handshake succeeds. *)
Example connector_ready_trace :
  snd (connector ready)
  = [EvCreateStream 0 1 (SendStream 0) (ReceiveStream 0);
     EvCreateStream 1 1 (SendStream 1) (ReceiveStream 1);
     EvTaskGroupEnter 0;
     EvCreateInitializationOptions 3 (Ret 103);
     EvServerRun 3 (ReceiveStream 1) (SendStream 0) 103 false (Ret 203);
     EvStartSoon 0 203;
     EvClientSession (ReceiveStream 0) (SendStream 1) None (Ret 5);
     EvSessionEnter 5 (Ret 5);
     EvInitialize 5 (Ret tt)].
Proof. vm_compute. reflexivity. Qed.

(** Entering the connector when the handshake times out. *)
Example connector_stalled_trace :
  fst (fst (connector stalled)) = Raise TimeoutError
  /\ snd (connector stalled)
     = [EvCreateStream 0 1 (SendStream 0) (ReceiveStream 0);
        EvCreateStream 1 1 (SendStream 1) (ReceiveStream 1);
        EvTaskGroupEnter 0;
        EvCreateInitializationOptions 3 (Ret 103);
        EvServerRun 3 (ReceiveStream 1) (SendStream 0) 103 false (Ret 203);
        EvStartSoon 0 203;
        EvClientSession (ReceiveStream 0) (SendStream 1) None (Ret 5);
        EvSessionEnter 5 (Ret 5);
        EvInitialize 5 (Raise TimeoutError);
        EvSessionExit 5 (Some TimeoutError) (Ret false);
        EvCancel 0;
        EvTaskGroupExit 0 (Some TimeoutError) (Ret false);
        EvCloseSend (SendStream 0);
        EvCloseReceive (ReceiveStream 1);
        EvCloseSend (SendStream 1);
        EvCloseReceive (ReceiveStream 0)].
Proof. vm_compute. split; reflexivity. Qed.

(** Entering the connector when the server cannot give its options: nothing
    is started and nothing is cancelled. *)
Example connector_without_task_trace :
  fst (fst (connector_without_task ready)) = Raise (OtherException 9)
  /\ snd (connector_without_task ready)
     = [EvCreateStream 0 1 (SendStream 0) (ReceiveStream 0);
        EvCreateStream 1 1 (SendStream 1) (ReceiveStream 1);
        EvTaskGroupEnter 0;
        EvCreateInitializationOptions 3 (Raise (OtherException 9));
        EvTaskGroupExit 0 (Some (OtherException 9)) (Ret false);
        EvCloseSend (SendStream 0);
        EvCloseReceive (ReceiveStream 1);
        EvCloseSend (SendStream 1);
        EvCloseReceive (ReceiveStream 0)].
Proof. vm_compute. split; reflexivity. Qed.

(** A second write on a stream of capacity one parks the writer; the reads
    are given both items in write order, and a third read parks the
    reader. *)
Example capacity_one_schedule :
  let '(accepted, given, w) :=
    @observe nat nat nat nat nat nat Env (SendStream 1) (ReceiveStream 1)
      [OpSend (inl 10); OpSend (inl 20); OpReceive; OpReceive; OpReceive]
      once in
  accepted = [inl 10; inl 20]
  /\ given = [inl 10; inl 20]
  /\ waiting_receivers (states w 1) = 1.
Proof. vm_compute. repeat split. Qed.


(** The handshake succeeds and the block raises: the task that was started
    on entry is cancelled when the scope is left. *)
Lemma server_task_cancelled_on_every_exit_witness :
  match streams ready with
  | (Ret ((client_streams, server_streams), _), _, _) =>
      let '(_, _, tr) :=
        exec (async_with connector
                (fun client_session => perform (failing_block client_session)))
          ready in
      exists (t0 t2 : list SampleEvent) exc wc,
        tr = t0 ++ [EvStartSoon 0 203] ++ t2
                ++ [EvCancel 0;
                    EvTaskGroupExit 0 exc (fst (TaskGroup_aexit 0 exc wc))]
                ++ releases client_streams server_streams
        /\ cancel_called (task_groups wc 0) = true
        /\ In (EvTaskGroupEnter 0) t0
        /\ (forall tg', ~ In (EvCancel tg') t0)
  | _ => False
  end.
Proof.
  apply (@server_task_cancelled_on_every_exit nat nat nat nat nat nat Env
           TaskGroup_aexit ClientSession_new ClientSession_aenter
           ClientSession_initialize ClientSession_aexit
           Server_create_initialization_options Server_run 3 None false
           failing_block ready
           (fst (fst (connector ready))) (snd (fst (connector ready)))
           (snd (connector ready)) 0 203).
  - vm_compute. reflexivity.
  - vm_compute. do 5 right. left. reflexivity.
Defined.

(** The handshake times out: the timeout goes through the two [__aexit__],
    the task group is cancelled and the endpoints are closed; with a session
    and a task group that let it through, entering raises the timeout. *)
Lemma handshake_failure_propagates_witness :
  exists (t0 : list SampleEvent) mgr tg (coro : nat) ws wc,
    let a_s := fst (ClientSession_aexit mgr (Some TimeoutError) ws) in
    let o1 := @exit_outcome nat nat nat nat nat nat Env nat (Raise TimeoutError) a_s in
    let a_tg := fst (TaskGroup_aexit tg (exc_of o1) wc) in
    snd (connector stalled)
    = t0 ++ [EvInitialize 5 (Raise TimeoutError);
             EvSessionExit mgr (Some TimeoutError) a_s;
             EvCancel tg;
             EvTaskGroupExit tg (exc_of o1) a_tg]
         ++ releases client1 server1
    /\ In (EvStartSoon tg coro) t0
    /\ cancel_called (task_groups wc tg) = true
    /\ all_closed (snd (fst (connector stalled))) client1 server1
    /\ fst (fst (connector stalled))
       = match exit_outcome o1 a_tg with
         | Raise e' => Raise e'
         | Ret _ => Raise (RuntimeError "generator didn't yield")
         end
    /\ (exists e', fst (fst (connector stalled)) = Raise e')
    /\ (lets_through TimeoutError a_s -> lets_through TimeoutError a_tg ->
        fst (fst (connector stalled)) = Raise TimeoutError).
Proof.
  apply (@handshake_failure_propagates nat nat nat nat nat nat Env
           TaskGroup_aexit ClientSession_new ClientSession_aenter
           ClientSession_initialize ClientSession_aexit
           Server_create_initialization_options Server_run
           3 None false stalled
           (fst (fst (connector stalled))) (snd (fst (connector stalled)))
           (snd (connector stalled)) 5 TimeoutError).
  - vm_compute. reflexivity.
  - vm_compute. do 8 right. left. reflexivity.
Defined.

(** The handshake times out under a task group that reports the exception
    it is exited with inside an exception group: the caller of the connector
    gets the group that holds the timeout, not the timeout. *)
Lemma handshake_failure_reaches_caller_in_a_group :
  In (EvInitialize 5 (Raise TimeoutError)) (snd (connector_grouping stalled))
  /\ fst (fst (connector_grouping stalled))
     = Raise (ExceptionGroup "unhandled errors in a TaskGroup" [TimeoutError])
  /\ fst (fst (connector_grouping stalled)) <> Raise TimeoutError.
Proof.
  split; [vm_compute; do 8 right; left; reflexivity |].
  split; [vm_compute; reflexivity |].
  vm_compute. discriminate.
Qed.

(** Two invocations of the factory, one after the other. *)
Lemma invocations_are_isolated_witness :
  (forall r1 r2, In r1 [fst client1; fst server1] ->
                 In r2 [fst client2; fst server2] -> r1 <> r2)
  /\ (forall s1 s2, In s1 [snd client1; snd server1] ->
                    In s2 [snd client2; snd server2] -> s1 <> s2)
  /\ forall wc : SampleWorld,
      bound_as once wc client1 -> bound_as once wc server1 ->
      bound_as twice wc client2 -> bound_as twice wc server2 ->
      (forall s r (item : Item nat),
          In s [snd client2; snd server2] -> In r [fst client1; fst server1] ->
          send_stream_state wc s <> receive_stream_state wc r
          /\ fst (fst (@receive nat nat nat nat nat nat Env r
                         (snd (fst (@send nat nat nat nat nat nat Env s item wc)))))
             = fst (fst (@receive nat nat nat nat nat nat Env r wc)))
      /\ (forall s r (item : Item nat),
             In s [snd client1; snd server1] -> In r [fst client2; fst server2] ->
             send_stream_state wc s <> receive_stream_state wc r
             /\ fst (fst (@receive nat nat nat nat nat nat Env r
                            (snd (fst (@send nat nat nat nat nat nat Env s item wc)))))
                = fst (fst (@receive nat nat nat nat nat nat Env r wc))).
Proof.
  apply (@invocations_are_isolated nat nat nat nat nat nat Env ready once
           client1 server1 (exit_of (streams ready)) once (snd (streams ready))
           client2 server2 (exit_of (streams once)) twice (snd (streams once))).
  - vm_compute. reflexivity.
  - vm_compute. lia.
  - vm_compute. reflexivity.
Defined.

(** ** Further scripted runs *)

(** The handshake succeeded: the session was constructed once, right after
    the task was started. *)
Lemma session_bound_to_client_streams_witness :
  match streams ready with
  | (Ret ((client_streams, server_streams), _), _, _) =>
      let '(client_read, client_write) := client_streams in
      exists (t0 : list SampleEvent) oc rest,
        snd (connector ready)
        = t0 ++ [EvStartSoon 0 203;
                 EvClientSession client_read client_write None oc] ++ rest
        /\ (forall rd wr t' o', ~ In (EvClientSession rd wr t' o') t0)
        /\ (forall rd wr t' o', ~ In (EvClientSession rd wr t' o') rest)
  | _ => False
  end.
Proof.
  apply (@session_bound_to_client_streams nat nat nat nat nat nat Env
           TaskGroup_aexit ClientSession_new ClientSession_aenter
           ClientSession_initialize ClientSession_aexit
           Server_create_initialization_options Server_run 3 None false ready
           (fst (fst (connector ready))) (snd (fst (connector ready)))
           (snd (connector ready)) 0 203).
  - vm_compute. reflexivity.
  - vm_compute. do 5 right. left. reflexivity.
Defined.

(** The handshake succeeded: the whole trace of the entry. *)
Lemma nothing_released_before_hand_over_witness :
  match streams ready with
  | (Ret ((client_streams, server_streams), _), _, t1) =>
      exists (tg opts coro mgr : nat),
        snd (connector ready)
        = t1 ++ [EvTaskGroupEnter tg;
                 EvCreateInitializationOptions 3 (Ret opts);
                 EvServerRun 3 (fst server_streams) (snd server_streams)
                   opts false (Ret coro);
                 EvStartSoon tg coro;
                 EvClientSession (fst client_streams) (snd client_streams)
                   None (Ret mgr);
                 EvSessionEnter mgr (Ret 5);
                 EvInitialize 5 (Ret tt)]
        /\ exists q s r q' s' r',
            t1 = [EvCreateStream q 1 s r; EvCreateStream q' 1 s' r']
  | _ => False
  end.
Proof.
  apply (@nothing_released_before_hand_over nat nat nat nat nat nat Env
           TaskGroup_aexit ClientSession_new ClientSession_aenter
           ClientSession_initialize ClientSession_aexit
           Server_create_initialization_options Server_run 3 None false ready
           5 (exit_of (connector ready)) (snd (fst (connector ready)))
           (snd (connector ready))).
  vm_compute. reflexivity.
Defined.

(** The constructor of the session raises. *)
Lemma session_setup_failure_skips_handshake_witness :
  (exists e', fst (fst (connector_without_session ready)) = Raise e')
  /\ (forall s a, ~ In (EvInitialize s a) (snd (connector_without_session ready)))
  /\ (forall m x a, ~ In (EvSessionExit m x a) (snd (connector_without_session ready)))
  /\ ((forall tg w0,
          lets_through (OtherException 7)
            (fst (TaskGroup_aexit tg (Some (OtherException 7)) w0))) ->
      fst (fst (connector_without_session ready)) = Raise (OtherException 7)).
Proof.
  apply (@session_setup_failure_skips_handshake nat nat nat nat nat nat Env
           TaskGroup_aexit ClientSession_new_failing ClientSession_aenter
           ClientSession_initialize ClientSession_aexit
           Server_create_initialization_options Server_run 3 None false ready
           (fst (fst (connector_without_session ready)))
           (snd (fst (connector_without_session ready)))
           (snd (connector_without_session ready)) (OtherException 7)).
  - vm_compute. reflexivity.
  - left. exists (ReceiveStream 0), (SendStream 1), None.
    vm_compute. do 6 right. left. reflexivity.
Defined.

(** The handshake times out and the session's [__aexit__] suppresses it. *)
Lemma suppressed_handshake_failure_is_runtime_error_witness :
  fst (fst (connector_suppressing stalled))
  = Raise (RuntimeError "generator didn't yield")
  /\ @None PyExc = None.
Proof.
  apply (@suppressed_handshake_failure_is_runtime_error nat nat nat nat nat nat Env
           TaskGroup_aexit ClientSession_new ClientSession_aenter
           ClientSession_initialize ClientSession_aexit_suppressing
           Server_create_initialization_options Server_run
           3 None false stalled
           (fst (fst (connector_suppressing stalled)))
           (snd (fst (connector_suppressing stalled)))
           (snd (connector_suppressing stalled)) 5 TimeoutError 0 None false).
  - vm_compute. reflexivity.
  - vm_compute. do 9 right. left. reflexivity.
  - vm_compute. do 11 right. left. reflexivity.
Defined.

(** The server cannot give its initialization options. *)
Lemma start_failure_skips_session_and_cancel_witness :
  match streams ready with
  | (Ret ((client_streams, server_streams), _), _, t1) =>
      exists tg (called : list SampleEvent) wt,
        let a := fst (TaskGroup_aexit tg (Some (OtherException 9)) wt) in
        snd (connector_without_task ready)
        = t1 ++ [EvTaskGroupEnter tg] ++ called
             ++ [EvTaskGroupExit tg (Some (OtherException 9)) a]
             ++ releases client_streams server_streams
        /\ (called = [EvCreateInitializationOptions 3 (Raise (OtherException 9))]
            \/ exists opts,
                called = [EvCreateInitializationOptions 3 (Ret opts);
                          EvServerRun 3 (fst server_streams) (snd server_streams)
                            opts false (Raise (OtherException 9))])
        /\ (forall tg' c, ~ In (EvStartSoon tg' c) (snd (connector_without_task ready)))
        /\ (forall rd wr t' o',
               ~ In (EvClientSession rd wr t' o') (snd (connector_without_task ready)))
        /\ (forall tg', ~ In (EvCancel tg') (snd (connector_without_task ready)))
        /\ all_closed (snd (fst (connector_without_task ready)))
             client_streams server_streams
        /\ (exists e', fst (fst (connector_without_task ready)) = Raise e')
        /\ (lets_through (OtherException 9) a ->
            fst (fst (connector_without_task ready)) = Raise (OtherException 9))
  | _ => False
  end.
Proof.
  apply (@start_failure_skips_session_and_cancel nat nat nat nat nat nat Env
           TaskGroup_aexit ClientSession_new ClientSession_aenter
           ClientSession_initialize ClientSession_aexit
           Server_create_initialization_options_failing Server_run
           3 None false ready
           (fst (fst (connector_without_task ready)))
           (snd (fst (connector_without_task ready)))
           (snd (connector_without_task ready)) (OtherException 9)).
  - vm_compute. reflexivity.
  - left. vm_compute. do 3 right. left. reflexivity.
Defined.

(** The block raises after the session was handed over. *)
Lemma block_outcome_propagates_witness :
  fst (fst (exec (async_with connector
                    (fun client_session => perform (failing_block client_session)))
              ready))
  = Raise (OtherException 1).
Proof.
  apply (@block_outcome_propagates nat nat nat nat nat nat Env
           TaskGroup_aexit ClientSession_new ClientSession_aenter
           ClientSession_initialize ClientSession_aexit
           Server_create_initialization_options Server_run 3 None false
           failing_block ready
           5 (exit_of (connector ready)) (snd (fst (connector ready)))
           (snd (connector ready))
           (Raise (OtherException 1)) (snd (fst (connector ready))) []).
  - vm_compute. reflexivity.
  - reflexivity.
  - split; intros; left; reflexivity.
Defined.

(** Leaving the connector after a successful entry. *)
Lemma scope_is_left_in_order_witness :
  match streams ready with
  | (Ret ((client_streams, server_streams), _), _, _) =>
      exists (tg mgr : nat),
        In (EvTaskGroupEnter tg) (snd (connector ready))
        /\ In (EvSessionEnter mgr (Ret 5)) (snd (connector ready))
        /\ forall (exc : option PyExc) (wb : SampleWorld),
            exists a_s exc' a,
              snd (exit_of (connector ready) exc wb)
              = [EvSessionExit mgr exc a_s; EvCancel tg;
                 EvTaskGroupExit tg exc' a]
                  ++ releases client_streams server_streams
  | _ => False
  end.
Proof.
  apply (@scope_is_left_in_order nat nat nat nat nat nat Env
           TaskGroup_aexit ClientSession_new ClientSession_aenter
           ClientSession_initialize ClientSession_aexit
           Server_create_initialization_options Server_run 3 None false ready
           5 (exit_of (connector ready)) (snd (fst (connector ready)))
           (snd (connector ready))).
  vm_compute. reflexivity.
Defined.

End Sample.
